(** * AI-Weather-CLI: the tool-calling loop of [src/assistant.py]

    A shallow embedding of the weather assistant (models.py,
    weather_service.py, assistant.py) and the properties of its
    specification that were checked against it.

    Python values are embedded as follows.  A [str] is a [string] (its
    UTF-8 bytes), an [int] is a [Z], a [dict] used as a buffer keyed by slot
    index is a [gmap Z _], a [dict] decoded from JSON is an association list
    in insertion order, [Optional[T]] is [option T], a dataclass is a
    record.  A call that may raise returns an [outcome]. *)

From Stdlib Require Import ZArith String Ascii List Lia.
From stdpp Require Import base option list gmap strings sorting pretty.

Set Warnings "-register-all".

Open Scope string_scope.
Open Scope Z_scope.
Open Scope list_scope.

(** ** Strings *)

(** The empty [str]. *)
Abbreviation empty_str := EmptyString (only parsing).

(** [bool(s)] for a [str]. *)
Definition str_truthy (s : string) : bool :=
  match s with EmptyString => false | String _ _ => true end.

(** [''.join(l)]. *)
Definition str_concat (l : list string) : string :=
  foldr String.append empty_str l.

(** [sep.join(l)] *)
Fixpoint str_join (sep : string) (l : list string) : string :=
  match l with
  | [] => EmptyString
  | [s] => s
  | s :: l' => s +:+ sep +:+ str_join sep l'
  end.

(** ** Exceptions and results *)

(** The exception classes the code raises, catches or lets through. *)
Inductive exn_class :=
  | JSONDecodeError      (* json.JSONDecodeError, a ValueError *)
  | ValueError
  | SyntaxError
  | TypeError
  | AttributeError
  | KeyError
  | IndexError
  | APITimeoutError      (* openai.APITimeoutError *)
  | TimeoutException     (* httpx.TimeoutException, an httpx.HTTPError *)
  | HTTPError            (* httpx.HTTPError *)
  | OtherException       (* any other subclass of Exception *)
  | NotModelled.         (* raised by a modelled library outside its fragment *)

#[global] Instance exn_class_eq_dec : EqDecision exn_class.
Proof. solve_decision. Defined.

(** An exception: its class and [str(e)]. *)
Record exn := Exn { exn_cls : exn_class; exn_msg : string }.

(** [isinstance(e, target)] for the classes above. *)
Definition exn_isinstance (e : exn) (target : exn_class) : bool :=
  match target, exn_cls e with
  | ValueError, JSONDecodeError => true
  | HTTPError, TimeoutException => true
  | t, c => bool_decide (t = c)
  end.

(** [except (c1, c2, ...)] *)
Definition caught_by (e : exn) (targets : list exn_class) : bool :=
  existsb (exn_isinstance e) targets.

(** The result of a call: a value or a raised exception. *)
Inductive outcome (A : Type) :=
  | Return (a : A)
  | Raise (e : exn).
Arguments Return {A} a.
Arguments Raise {A} e.

Definition obind {A B} (m : outcome A) (k : A → outcome B) : outcome B :=
  match m with Return a => k a | Raise e => Raise e end.

(** [try: body  except targets: handler] *)
Definition try_except {A} (body : outcome A) (targets : list exn_class)
    (handler : exn → outcome A) : outcome A :=
  match body with
  | Return a => Return a
  | Raise e => if caught_by e targets then handler e else Raise e
  end.

Declare Scope py_scope.
Delimit Scope py_scope with py.
Notation "'try!' x := m 'in' k" := (obind m (λ x, k))
  (at level 10, x name, m at level 100, k at level 200,
   format "'[v' 'try!'  x  :=  m  'in' '/' k ']'") : py_scope.
Open Scope py_scope.

(** A list comprehension whose element may raise: the first exception ends
    it. *)
Fixpoint omapM {A B} (f : A → outcome B) (l : list A) : outcome (list B) :=
  match l with
  | [] => Return []
  | x :: l' =>
      try! y := f x in
      try! ys := omapM f l' in
      Return (y :: ys)
  end.

(** ** Python values *)

(** A [float] decoded from a decimal literal is kept as that decimal,
    [m * 10^e]; the code only formats floats and tests them for zero.  The
    decimals that stand for a double are those a double holds exactly
    enough to print them back. *)
Inductive pyfloat :=
  | FDec (m e : Z)
  | FNaN
  | FInf (negative : bool).

(** The values that flow through the parser and the executor: what
    [json.loads] returns, and [PyOther] for a value of any other type (tuple,
    set, bytes, ...) that [ast.literal_eval] may return, of which the code
    only observes that it is neither [str] nor [list], and its truth value. *)
Inductive pyval :=
  | PyNone
  | PyBool (b : bool)
  | PyInt (z : Z)
  | PyFloat (f : pyfloat)
  | PyStr (s : string)
  | PyList (l : list pyval)
  | PyDict (d : list (string * pyval))
  | PyOther (truthy : bool).

(** [bool(v)] *)
Definition py_truthy (v : pyval) : bool :=
  match v with
  | PyNone => false
  | PyBool b => b
  | PyInt z => negb (z =? 0)
  | PyFloat (FDec m _) => negb (m =? 0)
  | PyFloat _ => true
  | PyStr s => str_truthy s
  | PyList l => match l with [] => false | _ => true end
  | PyDict d => match d with [] => false | _ => true end
  | PyOther t => t
  end.

(** [type(v).__name__], for messages. *)
Definition py_type_name (v : pyval) : string :=
  match v with
  | PyNone => "NoneType"
  | PyBool _ => "bool"
  | PyInt _ => "int"
  | PyFloat _ => "float"
  | PyStr _ => "str"
  | PyList _ => "list"
  | PyDict _ => "dict"
  | PyOther _ => "object"
  end.

(** *** Dicts with [str] keys, in insertion order *)

(** [d.get(k)], [None] when absent *)
Fixpoint dict_get (k : string) (d : list (string * pyval)) : option pyval :=
  match d with
  | [] => None
  | (k', v) :: d' => if decide (k' = k) then Some v else dict_get k d'
  end.

(** [d[k] = v]: the value of an existing key is replaced in place, a new
    key goes last. *)
Fixpoint dict_set (k : string) (v : pyval) (d : list (string * pyval))
    : list (string * pyval) :=
  match d with
  | [] => [(k, v)]
  | (k', v') :: d' =>
      if decide (k' = k) then (k, v) :: d' else (k', v') :: dict_set k v d'
  end.

(** [s in t] for two [str]: [s] occurs in [t]. *)
Fixpoint str_contains (s t : string) : bool :=
  if String.prefix s t then true
  else match t with
       | EmptyString => false
       | String _ t' => str_contains s t'
       end.

(** [key in v], as the parser evaluates ["cities" in arguments]: a key test
    on a dict, a substring test on a str, an element test on a list, and a
    [TypeError] on a value that is not iterable. *)
Definition py_contains_str (key : string) (v : pyval) : outcome bool :=
  match v with
  | PyDict d => Return (bool_decide (is_Some (dict_get key d)))
  | PyStr s => Return (str_contains key s)
  | PyList l =>
      Return (existsb (λ x, match x with
                            | PyStr s => bool_decide (s = key)
                            | _ => false
                            end) l)
  | _ => Raise (Exn TypeError
                  ("argument of type '" +:+ py_type_name v
                   +:+ "' is not iterable"))
  end.

(** [v[key]] for a [str] key: a lookup in a dict ([KeyError] when absent),
    a [TypeError] on a str, a list or a value without subscripts. *)
Definition py_getitem_str (v : pyval) (key : string) : outcome pyval :=
  match v with
  | PyDict d =>
      match dict_get key d with
      | Some x => Return x
      | None => Raise (Exn KeyError ("'" +:+ key +:+ "'"))
      end
  | PyStr _ => Raise (Exn TypeError "string indices must be integers, not 'str'")
  | PyList _ =>
      Raise (Exn TypeError "list indices must be integers or slices, not str")
  | _ => Raise (Exn TypeError
                  ("'" +:+ py_type_name v +:+ "' object is not subscriptable"))
  end.

(** [v.get(key, dflt)]: only a dict has [get]. *)
Definition py_get (v : pyval) (key : string) (dflt : pyval) : outcome pyval :=
  match v with
  | PyDict d => Return (default dflt (dict_get key d))
  | _ => Raise (Exn AttributeError
                  ("'" +:+ py_type_name v +:+ "' object has no attribute 'get'"))
  end.

(** ** The JSON decoder

    [json.loads] as CPython implements it (json/decoder.py, json/scanner.py),
    on a [str] given by its UTF-8 bytes: white space, the three names,
    numbers, strings in strict mode with their escapes, arrays, objects
    (a repeated key keeps its first position and its last value), and the
    constants [NaN], [Infinity] and [-Infinity].  A [float] is kept as the
    decimal it was written as, which is the value Python tests and prints
    when the decimal has at most 15 significant digits and lies in the
    range of the normal doubles.  Where the answer of CPython depends on
    the rounding of a double, on the version or on the stack of the
    interpreter, the model does not decide and raises [NotModelled]: on a
    float with more digits or of a magnitude below [1e-300] or not below
    [1e300], on
    a negative zero, on an [int] of more than 4300 digits, and on arrays
    and objects nested more than 100 deep.  The text of the error is not
    modelled. *)
Module json.

Definition code (c : ascii) : Z := Z.of_N (N_of_ascii c).
Definition chr (n : Z) : ascii := ascii_of_N (Z.to_N n).

Definition is_ws (c : ascii) : bool :=
  match c with
  | " "%char | "009"%char | "010"%char | "013"%char => true
  | _ => false
  end.

Fixpoint skip_ws (s : list ascii) : list ascii :=
  match s with
  | c :: r => if is_ws c then skip_ws r else s
  | [] => []
  end.

Definition digit_val (c : ascii) : option Z :=
  let n := code c in
  if (48 <=? n) && (n <=? 57) then Some (n - 48) else None.

Definition hex_val (c : ascii) : option Z :=
  let n := code c in
  if (48 <=? n) && (n <=? 57) then Some (n - 48)
  else if (97 <=? n) && (n <=? 102) then Some (n - 87)
  else if (65 <=? n) && (n <=? 70) then Some (n - 55)
  else None.

(** The longest run of digits at the head of [s], read onto [acc]; [n]
    counts them. *)
Fixpoint take_digits (s : list ascii) (acc n : Z) : Z * Z * list ascii :=
  match s with
  | c :: r =>
      match digit_val c with
      | Some d => take_digits r (10 * acc + d) (n + 1)
      | None => (acc, n, s)
      end
  | [] => (acc, n, [])
  end.

Definition starts_with_digit (s : list ascii) : bool :=
  match s with
  | c :: _ => bool_decide (is_Some (digit_val c))
  | [] => false
  end.

(** What a scanner finds at the head of a text: a value and the rest of
    the text, no value (a [JSONDecodeError]), or a value on which this
    model does not decide. *)
Inductive scan :=
  | Ok (v : pyval) (rest : list ascii)
  | Invalid
  | Unmodelled.

(** The number of decimal digits of [z > 0], and [z] without its trailing
    zeros, with the exponent that keeps [z * 10^e]. *)
Fixpoint count_digits (fuel : nat) (z : Z) : Z :=
  match fuel with
  | O => 0
  | S f => if z <? 10 then 1 else 1 + count_digits f (z / 10)
  end.

Fixpoint strip_zeros (fuel : nat) (z e : Z) : Z * Z :=
  match fuel with
  | O => (z, e)
  | S f =>
      if (z mod 10 =? 0) && negb (z =? 0) then strip_zeros f (z / 10) (e + 1)
      else (z, e)
  end.

Definition digit_fuel (z : Z) : nat := S (Z.to_nat (Z.log2 z)).

(** The floats [m * 10^e], [m >= 0], that the model keeps: zero when not
    written with a minus sign, and the decimals of at most 15 significant
    digits between [1e-300] and [1e300]. *)
Definition float_in_fragment (neg : bool) (m e : Z) : bool :=
  if m =? 0 then negb neg
  else
    let '(m', e') := strip_zeros (digit_fuel m) m e in
    let n := count_digits (digit_fuel m') m' in
    (n <=? 15) && (-300 <? n + e') && (n + e' <=? 300).

(** The longest [int] literal that [int()] converts by default. *)
Definition INT_MAX_STR_DIGITS : Z := 4300.

(** [NUMBER_RE]: an optional minus sign, then [0] or a digit from 1 to 9
    followed by digits; then optionally a point and one digit or more;
    then optionally [e] or [E], an optional sign and one digit or more.
    The value is an [int] when there is neither fraction nor exponent. *)
Definition scan_number (s : list ascii) : scan :=
  let '(neg, s1) :=
    match s with "-"%char :: r => (true, r) | _ => (false, s) end in
  let sgn (z : Z) := if neg then - z else z in
  let float (m e : Z) (rest : list ascii) :=
    if float_in_fragment neg m e then Ok (PyFloat (FDec (sgn m) e)) rest
    else Unmodelled in
  match s1 with
  | [] => Invalid
  | c :: r =>
      match digit_val c with
      | None => Invalid
      | Some d =>
          let '(ip, id, s2) :=
            if d =? 0 then (0, 1, r) else take_digits r d 1 in
          let '(m, fd, s3) :=
            match s2 with
            | "."%char :: r' =>
                if starts_with_digit r' then take_digits r' ip 0
                else (ip, 0, s2)
            | _ => (ip, 0, s2)
            end in
          let ex :=
            match s3 with
            | e :: r' =>
                if bool_decide (e = "e"%char ∨ e = "E"%char) then
                  let '(eneg, r'') :=
                    match r' with
                    | "-"%char :: t => (true, t)
                    | "+"%char :: t => (false, t)
                    | _ => (false, r')
                    end in
                  if starts_with_digit r'' then
                    let '(ev, _, s4) := take_digits r'' 0 0 in
                    Some (if eneg then - ev else ev, s4)
                  else None
                else None
            | [] => None
            end in
          match ex with
          | Some (ev, s4) => float m (ev - fd) s4
          | None =>
              if fd =? 0 then
                if id <=? INT_MAX_STR_DIGITS then Ok (PyInt (sgn ip)) s3
                else Unmodelled
              else float m (- fd) s3
          end
      end
  end.

(** The UTF-8 bytes of a code point. *)
Definition utf8 (n : Z) : list ascii :=
  if n <? 128 then [chr n]
  else if n <? 2048 then [chr (192 + n / 64); chr (128 + n mod 64)]
  else if n <? 65536 then
    [chr (224 + n / 4096); chr (128 + (n / 64) mod 64); chr (128 + n mod 64)]
  else
    [chr (240 + n / 262144); chr (128 + (n / 4096) mod 64);
     chr (128 + (n / 64) mod 64); chr (128 + n mod 64)].

Definition hex4 (a b c d : ascii) : option Z :=
  match hex_val a, hex_val b, hex_val c, hex_val d with
  | Some x, Some y, Some z, Some w => Some (((x * 16 + y) * 16 + z) * 16 + w)
  | _, _, _, _ => None
  end.

(** [BACKSLASH]: the escapes other than [\u]. *)
Definition simple_escape (c : ascii) : option ascii :=
  match c with
  | "034"%char => Some "034"%char
  | "\"%char => Some "\"%char
  | "/"%char => Some "/"%char
  | "b"%char => Some "008"%char
  | "f"%char => Some "012"%char
  | "n"%char => Some "010"%char
  | "r"%char => Some "013"%char
  | "t"%char => Some "009"%char
  | _ => None
  end.

(** [scanstring], strict: [s] starts after the opening quote, [acc] holds
    the decoded text read so far, last character first. *)
Fixpoint scan_string (s : list ascii) (acc : list ascii)
    : option (string * list ascii) :=
  match s with
  | [] => None
  | "034"%char :: r => Some (string_of_list_ascii (rev acc), r)
  | "\"%char :: r =>
      match r with
      | "u"%char :: h1 :: h2 :: h3 :: h4 :: r' =>
          match hex4 h1 h2 h3 h4 with
          | None => None
          | Some u =>
              if (55296 <=? u) && (u <=? 56319) then
                match r' with
                | "\"%char :: "u"%char :: r2 =>
                    match r2 with
                    | k1 :: k2 :: k3 :: k4 :: r'' =>
                        match hex4 k1 k2 k3 k4 with
                        | None => None
                        | Some u2 =>
                            if (56320 <=? u2) && (u2 <=? 57343) then
                              scan_string r''
                                (rev (utf8 (65536 + (u - 55296) * 1024
                                            + (u2 - 56320))) ++ acc)
                            else scan_string r' (rev (utf8 u) ++ acc)
                        end
                    | _ => None
                    end
                | _ => scan_string r' (rev (utf8 u) ++ acc)
                end
              else scan_string r' (rev (utf8 u) ++ acc)
          end
      | c :: r' =>
          match simple_escape c with
          | Some c' => scan_string r' (c' :: acc)
          | None => None
          end
      | [] => None
      end
  | c :: r => if code c <? 32 then None else scan_string r (c :: acc)
  end.

(** [scan_once], [JSONArray] and [JSONObject].  [value] reads a value at
    the head of [s]; [elements] reads the rest of an array whose elements
    read so far are [acc], last first; [members] reads the rest of an
    object from just after the opening quote of a key, the pairs read so
    far being [acc].  [depth] is the number of arrays and objects that may
    still be opened inside one another. *)
Fixpoint value (fuel depth : nat) (s : list ascii) {struct fuel} : scan :=
  match fuel with
  | O => Invalid
  | S f =>
      match s with
      | "034"%char :: r =>
          match scan_string r [] with
          | Some (str, r') => Ok (PyStr str) r'
          | None => Invalid
          end
      | "{"%char :: r =>
          match depth with
          | O => Unmodelled
          | S d =>
              match skip_ws r with
              | "}"%char :: r' => Ok (PyDict []) r'
              | "034"%char :: r' => members f d r' []
              | _ => Invalid
              end
          end
      | "["%char :: r =>
          match depth with
          | O => Unmodelled
          | S d =>
              match skip_ws r with
              | "]"%char :: r' => Ok (PyList []) r'
              | r' => elements f d r' []
              end
          end
      | "n"%char :: "u"%char :: "l"%char :: "l"%char :: r => Ok PyNone r
      | "t"%char :: "r"%char :: "u"%char :: "e"%char :: r =>
          Ok (PyBool true) r
      | "f"%char :: "a"%char :: "l"%char :: "s"%char :: "e"%char :: r =>
          Ok (PyBool false) r
      | _ =>
          match scan_number s with
          | Ok v r => Ok v r
          | Unmodelled => Unmodelled
          | Invalid =>
              match s with
              | "N"%char :: "a"%char :: "N"%char :: r =>
                  Ok (PyFloat FNaN) r
              | "I"%char :: "n"%char :: "f"%char :: "i"%char :: "n"%char
                :: "i"%char :: "t"%char :: "y"%char :: r =>
                  Ok (PyFloat (FInf false)) r
              | "-"%char :: "I"%char :: "n"%char :: "f"%char :: "i"%char
                :: "n"%char :: "i"%char :: "t"%char :: "y"%char :: r =>
                  Ok (PyFloat (FInf true)) r
              | _ => Invalid
              end
          end
      end
  end
with elements (fuel depth : nat) (s : list ascii) (acc : list pyval)
    {struct fuel} : scan :=
  match fuel with
  | O => Invalid
  | S f =>
      match value f depth s with
      | Ok v r =>
          match skip_ws r with
          | "]"%char :: r' => Ok (PyList (rev (v :: acc))) r'
          | ","%char :: r' => elements f depth (skip_ws r') (v :: acc)
          | _ => Invalid
          end
      | stop => stop
      end
  end
with members (fuel depth : nat) (s : list ascii)
    (acc : list (string * pyval)) {struct fuel} : scan :=
  match fuel with
  | O => Invalid
  | S f =>
      match scan_string s [] with
      | None => Invalid
      | Some (k, r) =>
          match skip_ws r with
          | ":"%char :: r1 =>
              match value f depth (skip_ws r1) with
              | Ok v r2 =>
                  match skip_ws r2 with
                  | "}"%char :: r3 => Ok (PyDict (dict_set k v acc)) r3
                  | ","%char :: r3 =>
                      match skip_ws r3 with
                      | "034"%char :: r4 =>
                          members f depth r4 (dict_set k v acc)
                      | _ => Invalid
                      end
                  | _ => Invalid
                  end
              | stop => stop
              end
          | _ => Invalid
          end
      end
  end.

(** The nesting of arrays and objects that the model follows. *)
Definition MAX_DEPTH : nat := 100.

(** [json.loads(s)] for a [str]: a value between optional white space, or
    [JSONDecodeError].  Every call of [value] consumes a character of
    input, so the fuel given here is never exhausted. *)
Definition loads (s : string) : outcome pyval :=
  let cs := skip_ws (list_ascii_of_string s) in
  match value (2 * length cs + 2)%nat MAX_DEPTH cs with
  | Ok v r =>
      match skip_ws r with
      | [] => Return v
      | _ => Raise (Exn JSONDecodeError "Extra data")
      end
  | Invalid => Raise (Exn JSONDecodeError "Expecting value")
  | Unmodelled => Raise (Exn NotModelled "JSON outside the modelled fragment")
  end.

End json.

(** ** Python literals

    [ast.literal_eval] on the fragment of Python this development evaluates,
    after the leading blanks that [literal_eval] strips: a list display of
    [None], [True], [False], unsigned decimal integers, quoted strings
    without escapes (printable ASCII) and such lists nested up to 20 deep,
    or one of these atoms alone; the empty text (a [SyntaxError]); and the
    texts made of ASCII identifiers, blanks and commas, as city names are:
    a single identifier or identifiers separated by single commas parse as
    names and are no literal (a [ValueError]), while a keyword alone, two
    identifiers side by side or a comma out of place do not parse (a
    [SyntaxError]).  On any other text the model does not decide what
    Python does and raises [NotModelled], which no handler of the program
    catches.  The text of the error is not modelled. *)
Module ast.

Definition is_blank (c : ascii) : bool :=
  match c with " "%char | "009"%char => true | _ => false end.

Fixpoint skip_blank (s : list ascii) : list ascii :=
  match s with
  | c :: r => if is_blank c then skip_blank r else s
  | [] => []
  end.

Definition is_ident_start (c : ascii) : bool :=
  let n := json.code c in
  ((65 <=? n) && (n <=? 90)) || ((97 <=? n) && (n <=? 122)) || (n =? 95).

Definition is_ident_char (c : ascii) : bool :=
  let n := json.code c in
  is_ident_start c || ((48 <=? n) && (n <=? 57)).

(** The keywords other than [None], [True] and [False]. *)
Definition keywords : list string :=
  ["and"; "as"; "assert"; "async"; "await"; "break"; "class"; "continue";
   "def"; "del"; "elif"; "else"; "except"; "finally"; "for"; "from";
   "global"; "if"; "import"; "in"; "is"; "lambda"; "nonlocal"; "not"; "or";
   "pass"; "raise"; "return"; "try"; "while"; "with"; "yield"].

(** A name is over where no identifier character follows. *)
Definition ends_name (s : list ascii) : bool :=
  match s with
  | c :: _ => negb (is_ident_char c)
  | [] => true
  end.

(** The text of a quoted string up to its closing quote [q]. *)
Fixpoint scan_quoted (q : ascii) (s : list ascii) (acc : list ascii)
    : option (string * list ascii) :=
  match s with
  | [] => None
  | c :: r =>
      if bool_decide (c = q) then Some (string_of_list_ascii (rev acc), r)
      else
        let n := json.code c in
        if (32 <=? n) && (n <=? 126) && negb (n =? 92)
        then scan_quoted q r (c :: acc)
        else None
  end.

(** An unsigned decimal integer: [0], or digits that do not start with 0;
    no digit, letter, underscore or point may follow. *)
Definition scan_int (s : list ascii) : option (pyval * list ascii) :=
  match s with
  | c :: r =>
      match json.digit_val c with
      | Some d =>
          let '(z, _, r') :=
            if d =? 0 then (0, 1, r) else json.take_digits r d 1 in
          match r' with
          | c' :: _ =>
              if is_ident_char c' || bool_decide (c' = "."%char) then None
              else Some (PyInt z, r')
          | [] => Some (PyInt z, r')
          end
      | None => None
      end
  | [] => None
  end.

Fixpoint expr (fuel depth : nat) (s : list ascii) {struct fuel}
    : option (pyval * list ascii) :=
  match fuel with
  | O => None
  | S f =>
      match s with
      | "'"%char :: r =>
          match scan_quoted "'"%char r [] with
          | Some (str, r') => Some (PyStr str, r')
          | None => None
          end
      | "034"%char :: r =>
          match scan_quoted "034"%char r [] with
          | Some (str, r') => Some (PyStr str, r')
          | None => None
          end
      | "["%char :: r =>
          match depth with
          | O => None
          | S d =>
              match skip_blank r with
              | "]"%char :: r' => Some (PyList [], r')
              | r' => items f d r' []
              end
          end
      | "N"%char :: "o"%char :: "n"%char :: "e"%char :: r =>
          if ends_name r then Some (PyNone, r) else None
      | "T"%char :: "r"%char :: "u"%char :: "e"%char :: r =>
          if ends_name r then Some (PyBool true, r) else None
      | "F"%char :: "a"%char :: "l"%char :: "s"%char :: "e"%char :: r =>
          if ends_name r then Some (PyBool false, r) else None
      | _ => scan_int s
      end
  end
with items (fuel depth : nat) (s : list ascii) (acc : list pyval)
    {struct fuel} : option (pyval * list ascii) :=
  match fuel with
  | O => None
  | S f =>
      match expr f depth s with
      | None => None
      | Some (v, r) =>
          match skip_blank r with
          | "]"%char :: r' => Some (PyList (rev (v :: acc)), r')
          | ","%char :: r' =>
              match skip_blank r' with
              | "]"%char :: r'' => Some (PyList (rev (v :: acc)), r'')
              | r'' => items f depth r'' (v :: acc)
              end
          | _ => None
          end
      end
  end.

(** The nesting of list displays that the model follows. *)
Definition MAX_DEPTH : nat := 20.

(** A text of identifiers, blanks and commas, token by token. *)
Inductive token :=
  | Word (w : string)
  | Comma.

Fixpoint word_chars (s : list ascii) : list ascii :=
  match s with
  | c :: r => if is_ident_char c then c :: word_chars r else []
  | [] => []
  end.

Fixpoint after_word (s : list ascii) : list ascii :=
  match s with
  | c :: r => if is_ident_char c then after_word r else s
  | [] => []
  end.

(** [None] when the text holds anything but identifiers, blanks and
    commas. *)
Fixpoint tokens (fuel : nat) (s : list ascii) : option (list token) :=
  match fuel with
  | O => None
  | S f =>
      match s with
      | [] => Some []
      | c :: r =>
          if is_blank c then tokens f r
          else if bool_decide (c = ","%char) then
            match tokens f r with
            | Some ts => Some (Comma :: ts)
            | None => None
            end
          else if is_ident_start c then
            match tokens f (after_word r) with
            | Some ts =>
                Some (Word (string_of_list_ascii (c :: word_chars r)) :: ts)
            | None => None
            end
          else None
      end
  end.

Definition is_reserved (t : token) : bool :=
  match t with
  | Word w => bool_decide (w ∈ "None" :: "True" :: "False" :: keywords)
  | Comma => false
  end.

(** An expression made of names: one name, or names separated by single
    commas, with or without a last comma. *)
Fixpoint names_only (ts : list token) : bool :=
  match ts with
  | [Word _] => true
  | [Word _; Comma] => true
  | Word _ :: Comma :: rest => names_only rest
  | _ => false
  end.

Definition literal_eval (s : string) : outcome pyval :=
  let cs := skip_blank (list_ascii_of_string s) in
  let unmodelled :=
    Raise (Exn NotModelled "literal outside the modelled fragment") in
  match expr (2 * length cs + 2)%nat MAX_DEPTH cs with
  | Some (v, r) =>
      match skip_blank r with
      | [] => Return v
      | _ => unmodelled
      end
  | None =>
      match cs with
      | [] => Raise (Exn SyntaxError "invalid syntax")
      | _ =>
          match tokens (S (length cs)) cs with
          | Some [Word w] =>
              if bool_decide (w ∈ keywords)
              then Raise (Exn SyntaxError "invalid syntax")
              else Raise (Exn ValueError "malformed node or string")
          | Some ts =>
              if existsb is_reserved ts then unmodelled
              else if names_only ts
              then Raise (Exn ValueError "malformed node or string")
              else Raise (Exn SyntaxError "invalid syntax")
          | None => unmodelled
          end
      end
  end.

End ast.

(** The double quote, and a text between double quotes. *)
Definition dq : string := String "034"%char EmptyString.
Definition quoted (s : string) : string := dq +:+ s +:+ dq.

(** ** models.py: tool invocations *)

Module InvokedFunction.
(** [@dataclass class InvokedFunction]: [name: str = ""; arguments: str = ""]. *)
Record t := mk { name : string; arguments : string }.
Definition new : t := mk empty_str empty_str.
End InvokedFunction.

Module ToolInvocation.
(** [@dataclass class ToolInvocation]: [id: str = ""],
    [function: InvokedFunction], which [__post_init__] fills with a fresh
    [InvokedFunction()] when absent. *)
Record t := mk { id : string; function : InvokedFunction.t }.
Definition new : t := mk empty_str InvokedFunction.new.

(** [self.id += s] *)
Definition add_id (s : string) (inv : t) : t :=
  mk (id inv +:+ s) (function inv).
(** [self.function.name += s] *)
Definition add_name (s : string) (inv : t) : t :=
  mk (id inv)
     (InvokedFunction.mk (InvokedFunction.name (function inv) +:+ s)
                         (InvokedFunction.arguments (function inv))).
(** [self.function.arguments += s] *)
Definition add_arguments (s : string) (inv : t) : t :=
  mk (id inv)
     (InvokedFunction.mk (InvokedFunction.name (function inv))
                         (InvokedFunction.arguments (function inv) +:+ s)).
End ToolInvocation.

(** ** The stream as the assistant reads it *)

Module ToolCallDelta.
(** One element [tc] of [delta.tool_calls]: the code reads [tc.index],
    [tc.id], [tc.function.name] and [tc.function.arguments]; each of the
    three texts may be [None]. *)
Record t := mk {
  index : Z;
  id : option string;
  function_name : option string;
  function_arguments : option string
}.
End ToolCallDelta.

Module Delta.
(** [chunk.choices[0].delta]: the code reads [delta.content] and
    [delta.tool_calls]. *)
Record t := mk {
  content : option string;
  tool_calls : option (list ToolCallDelta.t)
}.
End Delta.

(** The line feed. *)
Definition nl : string := String "010"%char EmptyString.

(** ** config.py *)

Definition WEATHER_TOOL_NAME : string := "get_weather".
Definition CLI_ASSISTANT_PROMPT : string := "Assistant: ".
(** [CLI_UNEXPECTED_ERROR.format(error=e)] *)
Definition CLI_UNEXPECTED_ERROR (error : string) : string :=
  "Unexpected error: " +:+ error.

(** ** The world outside the program *)

(** What the program does to the outside, in the order it does it: a text
    written to standard output, a request to the geocoding API, a request to
    the forecast API, a chat-completion request, and the events of the tasks
    that one [asyncio.gather] ran, task by task in the order the tasks were
    given (how the scheduler interleaves them is not modelled). *)
Inductive event :=
  | EvPrint (text : string)
  | EvGeocoding (name : pyval)
  | EvForecast (latitude longitude : pyval)
  | EvChat (messages : list (list (string * pyval)))
  | EvGather (tasks : list (list event)).

(** A chat-completion stream: the [delta] of each chunk, and the exception
    that iterating raises after them, if any. *)
Record stream := Stream {
  stream_deltas : list Delta.t;
  stream_error : option exn
}.

(** The libraries and the services the program calls.  An HTTP request
    returns the decoded JSON body of a successful response, or raises what
    [client.get], [raise_for_status] or [response.json] raised.  [py_repr] is
    [str(v)] on a value that is not a [str]. *)
Record Env := {
  json_loads : string → outcome pyval;
  literal_eval : string → outcome pyval;
  py_repr : pyval → string;
  geocoding_get : pyval → outcome pyval;
  forecast_get : pyval → pyval → outcome pyval;
  chat_create : list (list (string * pyval)) → outcome stream
}.

(** [f"{v}"] *)
Definition fmt (env : Env) (v : pyval) : string :=
  match v with
  | PyStr s => s
  | _ => py_repr env v
  end.

(** *** Calls that act on the outside: a result and the events, in order *)

Definition io (A : Type) : Type := outcome A * list event.

Definition io_ret {A} (a : A) : io A := (Return a, []).
Definition io_raise {A} (e : exn) : io A := (Raise e, []).
Definition io_bind {A B} (m : io A) (k : A → io B) : io B :=
  match m with
  | (Return a, evs) => let '(r, evs') := k a in (r, evs ++ evs')
  | (Raise e, evs) => (Raise e, evs)
  end.
Definition io_lift {A} (m : outcome A) : io A := (m, []).
Definition emit (ev : event) : io unit := (Return tt, [ev]).
(** [print(text, end="")] and [print(text)].  Standard output is taken to
    accept every text: a [print] that raises, as it does on a text that
    the encoding of the terminal cannot encode, is outside this model, and
    what is proved below of a function that prints is proved under that
    assumption. *)
Definition write (text : string) : io unit := emit (EvPrint text).
Definition print (text : string) : io unit := write (text +:+ nl).

(** [try: body  except t1: h1  except t2: h2]: the first clause that matches
    handles the exception. *)
Definition io_try2 {A} (body : io A)
    (t1 : list exn_class) (h1 : exn → io A)
    (t2 : list exn_class) (h2 : exn → io A) : io A :=
  match body with
  | (Return a, evs) => (Return a, evs)
  | (Raise e, evs) =>
      if caught_by e t1 then let '(r, evs') := h1 e in (r, evs ++ evs')
      else if caught_by e t2 then let '(r, evs') := h2 e in (r, evs ++ evs')
      else (Raise e, evs)
  end.
(** [try: body  except Exception: handler] *)
Definition io_try_all {A} (body : io A) (handler : exn → io A) : io A :=
  match body with
  | (Return a, evs) => (Return a, evs)
  | (Raise e, evs) => let '(r, evs') := handler e in (r, evs ++ evs')
  end.

Notation "'do!' x := m 'in' k" := (io_bind m (λ x, k))
  (at level 10, x name, m at level 100, k at level 200,
   format "'[v' 'do!'  x  :=  m  'in' '/' k ']'") : py_scope.
Notation "'run!' m 'in' k" := (io_bind m (λ _, k))
  (at level 10, m at level 100, k at level 200,
   format "'[v' 'run!'  m  'in' '/' k ']'") : py_scope.

(** ** models.py *)

Module MessageRole.
Definition SYSTEM : string := "system".
Definition USER : string := "user".
Definition ASSISTANT : string := "assistant".
Definition TOOL : string := "tool".
End MessageRole.

Module Message.
(** [@dataclass class Message] *)
Record t := mk {
  role : string;
  content : option string;
  tool_calls : option (list pyval);
  tool_call_id : option string;
  name : option string
}.

Definition has_content (m : t) : bool :=
  match content m with Some s => str_truthy s | None => false end.
Definition has_tool_calls (m : t) : bool :=
  match tool_calls m with Some (_ :: _) => true | _ => false end.

(** [result[key] = value] for a field that is not [None] *)
Definition put {A} (key : string) (field : option A) (inj : A → pyval)
    (result : list (string * pyval)) : list (string * pyval) :=
  match field with
  | Some x => dict_set key (inj x) result
  | None => result
  end.

(** [Message.to_dict] *)
Definition to_dict (m : t) : outcome (list (string * pyval)) :=
  if bool_decide (role m = MessageRole.ASSISTANT)
     && negb (has_content m) && negb (has_tool_calls m)
  then Raise (Exn ValueError
                "Assistant message must have either content or tool_calls")
  else
    let result := [("role", PyStr (role m))] in
    let result := put "content" (content m) PyStr result in
    let result := put "tool_calls" (tool_calls m) PyList result in
    let result := put "tool_call_id" (tool_call_id m) PyStr result in
    let result := put "name" (name m) PyStr result in
    Return result.
End Message.

Module ToolCallResponse.
(** [@dataclass class ToolCallResponse], [role] defaulting to
    [MessageRole.TOOL] *)
Record t := mk {
  tool_call_id : string;
  role : string;
  name : string;
  content : string
}.

(** [to_dict]: a dict whose four values are [str] *)
Definition to_dict (r : t) : list (string * string) :=
  [("tool_call_id", tool_call_id r); ("role", role r);
   ("name", name r); ("content", content r)].
End ToolCallResponse.

(** [d.get(k)] on a dict of [str] values *)
Fixpoint sdict_get (k : string) (d : list (string * string)) : option string :=
  match d with
  | [] => None
  | (k', v) :: d' => if decide (k' = k) then Some v else sdict_get k d'
  end.

Module WeatherToolResult.
Record t := mk { call_id : string; name : string; content : string }.

(** [to_tool_response] *)
Definition to_tool_response (r : t) : list (string * string) :=
  ToolCallResponse.to_dict
    (ToolCallResponse.mk (call_id r) MessageRole.TOOL (name r) (content r)).
End WeatherToolResult.

Module WeatherToolParams.
(** [arguments] is annotated [Dict[str, Any]]; it holds whatever
    [ParsedToolArguments.to_dict] returned. *)
Record t := mk { call_id : string; arguments : pyval }.
End WeatherToolParams.

(** [v.copy()]: a dict and a list have it. *)
Definition py_copy (v : pyval) : outcome pyval :=
  match v with
  | PyDict _ | PyList _ => Return v
  | _ => Raise (Exn AttributeError
                  ("'" +:+ py_type_name v +:+ "' object has no attribute 'copy'"))
  end.

(** [v[key] = x] for a [str] key *)
Definition py_setitem_str (v : pyval) (key : string) (x : pyval)
    : outcome pyval :=
  match v with
  | PyDict d => Return (PyDict (dict_set key x d))
  | PyList _ =>
      Raise (Exn TypeError "list indices must be integers or slices, not str")
  | _ => Raise (Exn TypeError
                  ("'" +:+ py_type_name v
                   +:+ "' object does not support item assignment"))
  end.

Module ParsedToolArguments.
(** [cities] is annotated [List[str]] and [raw_arguments]
    [Dict[str, Any]]; each holds whatever the parser stored. *)
Record t := mk { cities : pyval; raw_arguments : pyval }.

(** [ParsedToolArguments(raw_arguments=arguments)] *)
Definition new (arguments : pyval) : t := mk (PyList []) arguments.

Definition set_cities (v : pyval) (p : t) : t := mk v (raw_arguments p).

(** [to_dict] *)
Definition to_dict (p : t) : outcome pyval :=
  try! result := py_copy (raw_arguments p) in
  if py_truthy (cities p)
  then py_setitem_str result "cities" (cities p)
  else Return result.

(** [get_cities] *)
Definition get_cities (p : t) : outcome pyval :=
  try! c := py_get (raw_arguments p) "cities" PyNone in
  match c with
  | PyList _ => py_getitem_str (raw_arguments p) "cities"
  | _ => Return (cities p)
  end.
End ParsedToolArguments.

(** [ToolInvocation.to_history_dict] *)
Definition to_history_dict (inv : ToolInvocation.t) : pyval :=
  PyDict
    [("id", PyStr (ToolInvocation.id inv));
     ("type", PyStr "function");
     ("function",
      PyDict
        [("name", PyStr (InvokedFunction.name (ToolInvocation.function inv)));
         ("arguments",
          PyStr (InvokedFunction.arguments (ToolInvocation.function inv)))])].

Module Location.
(** The four fields hold what the geocoding response held. *)
Record t := mk { latitude : pyval; longitude : pyval;
                 name : pyval; country : pyval }.

(** [__str__]; Python raises [TypeError] when it returns a value that is
    not a [str]. *)
Definition str (env : Env) (l : t) : outcome string :=
  if py_truthy (country l)
  then Return (fmt env (name l) +:+ ", " +:+ fmt env (country l))
  else match name l with
       | PyStr s => Return s
       | v => Raise (Exn TypeError
                       ("__str__ returned non-string (type "
                        +:+ py_type_name v +:+ ")"))
       end.
End Location.

Module WeatherData.
Record t := mk {
  temperature : pyval;
  apparent_temperature : pyval;
  humidity : pyval;
  wind_speed : pyval;
  precipitation : pyval;
  weather_code : pyval;
  temperature_unit : pyval;
  humidity_unit : pyval;
  wind_speed_unit : pyval;
  precipitation_unit : pyval
}.

Definition format_for_llm (env : Env) (w : t) : string :=
  "Temperature: " +:+ fmt env (temperature w) +:+ " "
    +:+ fmt env (temperature_unit w) +:+ nl
  +:+ "Feels like: " +:+ fmt env (apparent_temperature w) +:+ " "
    +:+ fmt env (temperature_unit w) +:+ nl
  +:+ "Humidity: " +:+ fmt env (humidity w) +:+ " "
    +:+ fmt env (humidity_unit w) +:+ nl
  +:+ "Wind Speed: " +:+ fmt env (wind_speed w) +:+ " "
    +:+ fmt env (wind_speed_unit w) +:+ nl
  +:+ "Precipitation: " +:+ fmt env (precipitation w) +:+ " "
    +:+ fmt env (precipitation_unit w).
End WeatherData.

Module WeatherResponse.
Record t := mk { location : Location.t; weather : WeatherData.t }.

(** [format_for_llm] *)
Definition format_for_llm (env : Env) (r : t) : outcome string :=
  try! ls := Location.str env (location r) in
  Return ("Weather for " +:+ ls +:+ ":" +:+ nl
          +:+ WeatherData.format_for_llm env (weather r)).
End WeatherResponse.

Module CityWeatherResult.
Record t := mk {
  city : pyval;
  location : option Location.t;
  weather_data : option WeatherData.t;
  error : option string
}.

(** [to_string] *)
Definition to_string (env : Env) (r : t) : outcome string :=
  match error r with
  | Some (String a e) => Return (String a e)
  | _ =>
      match location r, weather_data r with
      | Some l, Some w =>
          try! ls := Location.str env l in
          Return ("Weather for " +:+ ls +:+ ":" +:+ nl
                  +:+ WeatherData.format_for_llm env w)
      | _, _ =>
          Return ("Error: Incomplete data for city '"
                  +:+ fmt env (city r) +:+ "'.")
      end
  end.
End CityWeatherResult.

(** ** assistant.py: Tool Call Assembler *)

Section assembler.

(** [if piece: target += piece]: [None] and the empty string are both
    falsy, anything else is appended through [upd]. *)
Definition when_present (piece : option string)
    (upd : string → ToolInvocation.t → ToolInvocation.t)
    (idx : Z) (buf : gmap Z ToolInvocation.t) : gmap Z ToolInvocation.t :=
  match piece with
  | Some s => if str_truthy s then alter (upd s) idx buf else buf
  | None => buf
  end.

(** The body of the [for tc in tool_calls_delta] loop. *)
Definition accumulate_fragment (buf : gmap Z ToolInvocation.t)
    (tc : ToolCallDelta.t) : gmap Z ToolInvocation.t :=
  let idx := ToolCallDelta.index tc in
  let buf :=
    match buf !! idx with
    | None => <[idx := ToolInvocation.new]> buf
    | Some _ => buf
    end in
  let buf := when_present (ToolCallDelta.id tc) ToolInvocation.add_id idx buf in
  let buf := when_present (ToolCallDelta.function_name tc)
               ToolInvocation.add_name idx buf in
  when_present (ToolCallDelta.function_arguments tc)
    ToolInvocation.add_arguments idx buf.

(** [_accumulate_tool_call_chunk(tool_calls_delta, tool_calls_buffer)];
    the buffer is updated in place, here it is returned. *)
Definition _accumulate_tool_call_chunk
    (tool_calls_delta : list ToolCallDelta.t)
    (tool_calls_buffer : gmap Z ToolInvocation.t) : gmap Z ToolInvocation.t :=
  fold_left accumulate_fragment tool_calls_delta tool_calls_buffer.

(** [sorted(tool_calls_buffer.keys())] *)
Definition sorted_keys (buf : gmap Z ToolInvocation.t) : list Z :=
  merge_sort Z.le (map_to_list buf).*1.

(** [_convert_tool_calls_buffer]:
    [[tool_calls_buffer[idx] for idx in sorted(tool_calls_buffer.keys())]].
    Every [idx] is a key, so no lookup fails. *)
Definition _convert_tool_calls_buffer
    (tool_calls_buffer : gmap Z ToolInvocation.t) : list ToolInvocation.t :=
  omap (λ idx, tool_calls_buffer !! idx) (sorted_keys tool_calls_buffer).

(** The buffer [_process_stream] holds once it has consumed the
    [delta.tool_calls] lists [deltas], starting from the empty dict. *)
Definition assemble_buffer (deltas : list (list ToolCallDelta.t))
    : gmap Z ToolInvocation.t :=
  fold_left (λ buf d, _accumulate_tool_call_chunk d buf) deltas ∅.

(** The finalized invocations of a stream. *)
Definition assemble (deltas : list (list ToolCallDelta.t))
    : list ToolInvocation.t :=
  _convert_tool_calls_buffer (assemble_buffer deltas).

End assembler.

(** *** The assembler as the specification words it *)

(** The fragments of slot [idx], in arrival order. *)
Definition slot_fragments (idx : Z) (frs : list ToolCallDelta.t)
    : list ToolCallDelta.t :=
  filter (λ tc, ToolCallDelta.index tc = idx) frs.

(** The text of a piece, an absent piece contributing nothing. *)
Definition piece_text (piece : option string) : string :=
  default empty_str piece.

(** The concatenation, in arrival order, of one field of a slot's fragments. *)
Definition slot_text (field : ToolCallDelta.t → option string)
    (idx : Z) (frs : list ToolCallDelta.t) : string :=
  str_concat (piece_text ∘ field <$> slot_fragments idx frs).

(** The invocation the specification describes for slot [idx]. *)
Definition slot_invocation (idx : Z) (frs : list ToolCallDelta.t)
    : ToolInvocation.t :=
  ToolInvocation.mk
    (slot_text ToolCallDelta.id idx frs)
    (InvokedFunction.mk
       (slot_text ToolCallDelta.function_name idx frs)
       (slot_text ToolCallDelta.function_arguments idx frs)).

(** What one fragment does to the invocation of its own slot. *)
Definition apply_pieces (inv : ToolInvocation.t) (tc : ToolCallDelta.t)
    : ToolInvocation.t :=
  ToolInvocation.mk
    (ToolInvocation.id inv +:+ piece_text (ToolCallDelta.id tc))
    (InvokedFunction.mk
       (InvokedFunction.name (ToolInvocation.function inv)
          +:+ piece_text (ToolCallDelta.function_name tc))
       (InvokedFunction.arguments (ToolInvocation.function inv)
          +:+ piece_text (ToolCallDelta.function_arguments tc))).

(** ** assistant.py: Tool Argument Parser *)

Section parser.

Variable env : Env.

(** [isinstance(v, str)], [isinstance(v, list)] *)
Definition is_str (v : pyval) : bool :=
  match v with PyStr _ => true | _ => false end.
Definition is_list (v : pyval) : bool :=
  match v with PyList _ => true | _ => false end.

(** ["cities" in arguments and isinstance(arguments["cities"], T)], for
    the type test [is_T] *)
Definition cities_is (is_T : pyval → bool) (arguments : pyval)
    : outcome bool :=
  try! present := py_contains_str "cities" arguments in
  if present : bool
  then try! c := py_getitem_str arguments "cities" in Return (is_T c)
  else Return false.

(** The [try] that decodes a [cities] given as a string: JSON first, then
    a Python literal, then the string itself as one city name. *)
Definition decode_cities_text (text : pyval) (s : string) : outcome pyval :=
  try_except (json_loads env s) [JSONDecodeError; ValueError] (λ _,
    try_except
      (try! parsed := literal_eval env s in
       if is_list parsed then Return parsed
       else Return (PyList (if py_truthy parsed then [parsed] else [])))
      [ValueError; SyntaxError]
      (λ _, Return (PyList [text]))).

(** [_parse_tool_arguments(arguments_str)] *)
Definition _parse_tool_arguments (arguments_str : string)
    : outcome ParsedToolArguments.t :=
  try! arguments :=
    try_except (json_loads env arguments_str)
      [JSONDecodeError; AttributeError] (λ _, Return (PyDict [])) in
  let parsed_args := ParsedToolArguments.new arguments in
  try! str_case := cities_is is_str arguments in
  if str_case : bool then
    try! text := py_getitem_str arguments "cities" in
    match text with
    | PyStr s =>
        try! cities := decode_cities_text text s in
        Return (ParsedToolArguments.set_cities cities parsed_args)
    | _ => Return parsed_args
    end
  else
    try! list_case := cities_is is_list arguments in
    if list_case : bool then
      try! cities := py_getitem_str arguments "cities" in
      Return (ParsedToolArguments.set_cities cities parsed_args)
    else Return parsed_args.

End parser.

(** ** weather_service.py *)

Section weather_service.

Variable env : Env.

(** [v[0]]: the first element of a list, the first character of a str;
    a dict from JSON has no key [0]. *)
Definition py_getitem_0 (v : pyval) : outcome pyval :=
  match v with
  | PyList (x :: _) => Return x
  | PyList [] => Raise (Exn IndexError "list index out of range")
  | PyStr (String a _) => Return (PyStr (String a EmptyString))
  | PyStr EmptyString => Raise (Exn IndexError "string index out of range")
  | PyDict _ => Raise (Exn KeyError "0")
  | _ => Raise (Exn TypeError
                  ("'" +:+ py_type_name v +:+ "' object is not subscriptable"))
  end.

(** [WeatherService.get_coordinates(city_name)] *)
Definition get_coordinates (city_name : pyval) : io (option Location.t) :=
  io_try2
       (run! emit (EvGeocoding city_name) in
        do! data := io_lift (geocoding_get env city_name) in
        do! results := io_lift (py_get data "results" PyNone) in
        if negb (py_truthy results) then io_ret None
        else
          do! results := io_lift (py_getitem_str data "results") in
          do! location_data := io_lift (py_getitem_0 results) in
          do! latitude := io_lift (py_getitem_str location_data "latitude") in
          do! longitude := io_lift (py_getitem_str location_data "longitude") in
          do! name := io_lift (py_getitem_str location_data "name") in
          do! country :=
            io_lift (py_get location_data "country" (PyStr EmptyString)) in
          io_ret (Some (Location.mk latitude longitude name country)))
       [TimeoutException]
       (λ e, run! print (nl +:+ "[System Error] Geocoding API timeout: "
                         +:+ exn_msg e) in
             io_ret None)
       [HTTPError]
       (λ e, run! print (nl +:+ "[System Error] Geocoding API failed: "
                         +:+ exn_msg e) in
             io_ret None).

(** [WeatherService.get_current_weather(latitude, longitude)] *)
Definition get_current_weather (latitude longitude : pyval)
    : io WeatherData.t :=
  io_try2
       (run! emit (EvForecast latitude longitude) in
        do! data := io_lift (forecast_get env latitude longitude) in
        do! current := io_lift (py_get data "current" (PyDict [])) in
        do! units := io_lift (py_get data "current_units" (PyDict [])) in
        let zero := PyFloat (FDec 0 (-1)) in
        do! temperature := io_lift (py_get current "temperature_2m" zero) in
        do! apparent :=
          io_lift (py_get current "apparent_temperature" zero) in
        do! humidity :=
          io_lift (py_get current "relative_humidity_2m" zero) in
        do! wind_speed := io_lift (py_get current "wind_speed_10m" zero) in
        do! precipitation := io_lift (py_get current "precipitation" zero) in
        do! weather_code := io_lift (py_get current "weather_code" PyNone) in
        do! temperature_unit :=
          io_lift (py_get units "temperature_2m" (PyStr "Â°C")) in
        do! humidity_unit :=
          io_lift (py_get units "relative_humidity_2m" (PyStr "%")) in
        do! wind_speed_unit :=
          io_lift (py_get units "wind_speed_10m" (PyStr "km/h")) in
        do! precipitation_unit :=
          io_lift (py_get units "precipitation" (PyStr "mm")) in
        io_ret (WeatherData.mk temperature apparent humidity wind_speed
                  precipitation weather_code temperature_unit humidity_unit
                  wind_speed_unit precipitation_unit))
       [TimeoutException]
       (λ e, io_raise (Exn ValueError
                         ("Timeout while fetching weather data: "
                          +:+ exn_msg e)))
       [HTTPError]
       (λ e, io_raise (Exn ValueError
                         ("Error fetching weather data: " +:+ exn_msg e))).

End weather_service.

(** ** assistant.py: Tool Executor *)

Section executor.

Variable env : Env.

(** The two numbered steps of [_get_weather_for_city], [# 1. Geocoding] and
    [# 2. Weather Fetch]: all of its body after the line that announces the
    city. *)
Definition geocode_and_fetch (city : pyval) : io CityWeatherResult.t :=
  do! location := get_coordinates env city in
  match location with
  | None =>
      io_ret (CityWeatherResult.mk city None None
                (Some ("Error: Could not find coordinates for city '"
                       +:+ fmt env city +:+ "'.")))
  | Some loc =>
      io_try_all
        (do! weather_data :=
           get_current_weather env (Location.latitude loc)
             (Location.longitude loc) in
         io_ret (CityWeatherResult.mk city (Some loc) (Some weather_data)
                   None))
        (λ e, io_ret (CityWeatherResult.mk city None None
                        (Some ("Error fetching weather data for "
                               +:+ fmt env city +:+ ": " +:+ exn_msg e))))
  end.

(** [_get_weather_for_city(city)] *)
Definition _get_weather_for_city (city : pyval) : io CityWeatherResult.t :=
  run! print ("[Calling " +:+ WEATHER_TOOL_NAME +:+ " for "
              +:+ fmt env city +:+ "...]") in
  geocode_and_fetch city.

(** The loop of [_process_city_results], at index [i] of [enumerate]. *)
Fixpoint process_from (i : nat) (cities : list pyval)
    (results : list (outcome CityWeatherResult.t))
    : outcome (list CityWeatherResult.t) :=
  match results with
  | [] => Return []
  | result :: rest =>
      try! entry :=
        match result with
        | Raise e =>
            match cities !! i with
            | Some c =>
                Return (CityWeatherResult.mk c None None
                          (Some ("Error processing city '" +:+ fmt env c
                                 +:+ "': " +:+ exn_msg e)))
            | None => Raise (Exn IndexError "list index out of range")
            end
        | Return r => Return r
        end in
      try! entries := process_from (S i) cities rest in
      Return (entry :: entries)
  end.

(** [_process_city_results(cities, results)] *)
Definition _process_city_results (cities : list pyval)
    (results : list (outcome CityWeatherResult.t))
    : outcome (list CityWeatherResult.t) :=
  process_from 0 cities results.

(** [_fetch_weather_for_cities(cities)]: one task per city;
    [asyncio.gather] with [return_exceptions=True] waits for all of them
    and returns, in the order of the tasks, what each returned or
    raised. *)
Definition _fetch_weather_for_cities (cities : list pyval)
    : io (list CityWeatherResult.t) :=
  let city_tasks := _get_weather_for_city <$> cities in
  let city_results := fst <$> city_tasks in
  run! emit (EvGather (snd <$> city_tasks)) in
  io_lift (_process_city_results cities city_results).

(** [_format_weather_content(results)] *)
Definition _format_weather_content (results : list CityWeatherResult.t)
    : outcome string :=
  try! texts := omapM (CityWeatherResult.to_string env) results in
  Return (str_join (nl +:+ nl) texts).

(** [_create_error_response(call_id, error_message)] *)
Definition _create_error_response (call_id error_message : string)
    : list (string * string) :=
  WeatherToolResult.to_tool_response
    (WeatherToolResult.mk call_id WEATHER_TOOL_NAME error_message).

(** [_validate_and_normalize_cities(arguments)] *)
Definition _validate_and_normalize_cities (arguments : pyval)
    : outcome (list pyval) :=
  try! cities := py_get arguments "cities" (PyList []) in
  match cities with
  | PyList l => Return l
  | c => Return (if py_truthy c then [c] else [])
  end.

(** [_run_weather_tool(params)] *)
Definition _run_weather_tool (params : WeatherToolParams.t)
    : io (list (string * string)) :=
  do! cities :=
    io_lift (_validate_and_normalize_cities
               (WeatherToolParams.arguments params)) in
  match cities with
  | [] =>
      io_ret (_create_error_response (WeatherToolParams.call_id params)
                "Error: No cities provided.")
  | _ =>
      do! city_results := _fetch_weather_for_cities cities in
      do! content := io_lift (_format_weather_content city_results) in
      io_ret (WeatherToolResult.to_tool_response
                (WeatherToolResult.mk (WeatherToolParams.call_id params)
                   WEATHER_TOOL_NAME content))
  end.

(** [_execute_tool_call(tool_call)] *)
Definition _execute_tool_call (tool_call : ToolInvocation.t)
    : io (list (string * string)) :=
  let func_name := InvokedFunction.name (ToolInvocation.function tool_call) in
  do! parsed_args :=
    io_lift (_parse_tool_arguments env
               (InvokedFunction.arguments
                  (ToolInvocation.function tool_call))) in
  if bool_decide (func_name = WEATHER_TOOL_NAME) then
    do! arguments := io_lift (ParsedToolArguments.to_dict parsed_args) in
    _run_weather_tool
      (WeatherToolParams.mk (ToolInvocation.id tool_call) arguments)
  else
    io_ret (ToolCallResponse.to_dict
              (ToolCallResponse.mk (ToolInvocation.id tool_call)
                 MessageRole.TOOL func_name
                 "Error: Unknown function requested.")).

End executor.

(** ** assistant.py: Interaction Loop *)

Section interaction_loop.

Variable env : Env.

(** [content if content else None] *)
Definition content_or_none (content : string) : option string :=
  if str_truthy content then Some content else None.

(** [_create_api_stream()]: [None] when the request timed out.  The tool
    schema and the other arguments of the request are constants. *)
Definition _create_api_stream (conversation_history : list Message.t)
    : io (option stream) :=
  do! messages := io_lift (omapM Message.to_dict conversation_history) in
  run! emit (EvChat messages) in
  match chat_create env messages with
  | Return s => io_ret (Some s)
  | Raise e =>
      if caught_by e [APITimeoutError]
      then run! print (nl +:+ "[System Error] API request timeout: "
                       +:+ exn_msg e) in
           io_ret None
      else io_raise e
  end.

(** The body of [async for chunk in stream], over the chunks' deltas. *)
Fixpoint drain (deltas : list Delta.t) (collected_content : string)
    (tool_calls_buffer : gmap Z ToolInvocation.t)
    : string * gmap Z ToolInvocation.t * list event :=
  match deltas with
  | [] => (collected_content, tool_calls_buffer, [])
  | delta :: rest =>
      let '(collected_content, printed) :=
        match Delta.content delta with
        | Some c =>
            if str_truthy c
            then (collected_content +:+ c, [EvPrint c])
            else (collected_content, [])
        | None => (collected_content, [])
        end in
      let tool_calls_buffer :=
        match Delta.tool_calls delta with
        | Some (tc :: tcs) =>
            _accumulate_tool_call_chunk (tc :: tcs) tool_calls_buffer
        | _ => tool_calls_buffer
        end in
      let '(c, b, evs) := drain rest collected_content tool_calls_buffer in
      (c, b, printed ++ evs)
  end.

(** [_process_stream(stream)] *)
Definition _process_stream (s : stream)
    : io (string * gmap Z ToolInvocation.t) :=
  run! write CLI_ASSISTANT_PROMPT in
  let '(content, buf, evs) := drain (stream_deltas s) EmptyString ∅ in
  match stream_error s with
  | Some e => (Raise e, evs)
  | None => (Return (content, buf), evs ++ [EvPrint nl])
  end.

(** [_handle_tool_calls(tool_calls)]: the result, the transcript and the
    events. *)
Definition _handle_tool_calls (tool_calls : list ToolInvocation.t)
    (conversation_history : list Message.t)
    : outcome unit * list Message.t * list event :=
  match tool_calls with
  | [] => (Return tt, conversation_history, [])
  | tool_call :: _ =>
      match _execute_tool_call env tool_call with
      | (Raise e, evs) => (Raise e, conversation_history, evs)
      | (Return tool_output_dict, evs) =>
          match sdict_get "role" tool_output_dict with
          | None => (Raise (Exn KeyError "'role'"), conversation_history, evs)
          | Some role =>
              let tool_msg :=
                Message.mk role
                  (Some (default EmptyString
                           (sdict_get "content" tool_output_dict)))
                  None
                  (sdict_get "tool_call_id" tool_output_dict)
                  (sdict_get "name" tool_output_dict) in
              (Return tt, conversation_history ++ [tool_msg], evs)
          end
      end
  end.

(** [_handle_stream_response(content, tool_calls_buffer)]: whether the
    loop continues, the transcript and the events. *)
Definition _handle_stream_response (content : string)
    (tool_calls_buffer : gmap Z ToolInvocation.t)
    (conversation_history : list Message.t)
    : outcome bool * list Message.t * list event :=
  if decide (tool_calls_buffer = ∅) then
    let assistant_msg :=
      Message.mk MessageRole.ASSISTANT (content_or_none content)
        None None None in
    (Return false, conversation_history ++ [assistant_msg], [])
  else
    let tool_calls_list := _convert_tool_calls_buffer tool_calls_buffer in
    let assistant_msg :=
      Message.mk MessageRole.ASSISTANT (content_or_none content)
        (Some (to_history_dict <$> tool_calls_list)) None None in
    let conversation_history := conversation_history ++ [assistant_msg] in
    match _handle_tool_calls tool_calls_list conversation_history with
    | (Return _, h, evs) => (Return true, h, evs)
    | (Raise e, h, evs) => (Raise e, h, evs)
    end.

(** The body of the [try] in [_run_interaction_loop]: whether the loop
    continues, the transcript and the events. *)
Definition turn (conversation_history : list Message.t)
    : outcome bool * list Message.t * list event :=
  match _create_api_stream conversation_history with
  | (Raise e, evs) => (Raise e, conversation_history, evs)
  | (Return None, evs) => (Return false, conversation_history, evs)
  | (Return (Some s), evs) =>
      match _process_stream s with
      | (Raise e, evs2) => (Raise e, conversation_history, evs ++ evs2)
      | (Return (content, buf), evs2) =>
          let '(r, h, evs3) :=
            _handle_stream_response content buf conversation_history in
          (r, h, evs ++ evs2 ++ evs3)
      end
  end.

(** [_run_interaction_loop()], run for at most [fuel] turns: the transcript
    and the events when the loop has ended, [None] when it has not ended
    within [fuel] turns. *)
Fixpoint _run_interaction_loop (fuel : nat)
    (conversation_history : list Message.t)
    : option (list Message.t * list event) :=
  match fuel with
  | O => None
  | S fuel' =>
      match turn conversation_history with
      | (Return true, h, evs) =>
          match _run_interaction_loop fuel' h with
          | Some (h', evs') => Some (h', evs ++ evs')
          | None => None
          end
      | (Return false, h, evs) => Some (h, evs)
      | (Raise e, h, evs) =>
          Some (h, evs ++ [EvPrint (CLI_UNEXPECTED_ERROR (exn_msg e) +:+ nl)])
      end
  end.

(** [process_message(user_input)] *)
Definition process_message (fuel : nat) (user_input : string)
    (conversation_history : list Message.t)
    : option (list Message.t * list event) :=
  _run_interaction_loop fuel
    (conversation_history
       ++ [Message.mk MessageRole.USER (Some user_input) None None None]).

End interaction_loop.

(** ** A reference environment

    The libraries as modelled above, with a [str] for values that is exact
    on [None], [bool], [int] and on the floats that the JSON decoder above
    keeps, and only indicative on other floats, on containers and on
    strings inside containers; the services are given. *)

(** [k] zeros. *)
Definition zeros (k : Z) : string :=
  string_of_list_ascii (replicate (Z.to_nat k) "0"%char).

(** [repr] of the float [m * 10^e], as [float_repr_style = 'short'] gives it
    for the digits of [m] without trailing zeros: with the point after
    [decpt] digits when [-4 < decpt <= 16], and otherwise with one digit
    before the point and an exponent of two digits or more. *)
Definition float_repr (m e : Z) : string :=
  if m =? 0 then "0.0"
  else
    let '(m', e') := json.strip_zeros (json.digit_fuel (Z.abs m)) (Z.abs m) e in
    let digits := pretty m' in
    let n := Z.of_nat (String.length digits) in
    let decpt := n + e' in
    let sign := if m <? 0 then "-" else EmptyString in
    sign +:+
    (if (decpt <=? -4) || (16 <? decpt) then
       let mantissa :=
         match digits with
         | String d (String d' rest) =>
             String d ("." +:+ String d' rest)
         | _ => digits
         end in
       let ex := decpt - 1 in
       mantissa +:+ "e" +:+ (if ex <? 0 then "-" else "+")
       +:+ (if Z.abs ex <? 10 then "0" else EmptyString)
       +:+ pretty (Z.abs ex)
     else if decpt <=? 0 then "0." +:+ zeros (- decpt) +:+ digits
     else if decpt <? n then
       String.substring 0 (Z.to_nat decpt) digits +:+ "."
       +:+ String.substring (Z.to_nat decpt) (Z.to_nat (n - decpt)) digits
     else digits +:+ zeros (decpt - n) +:+ ".0").

Fixpoint py_repr_model (v : pyval) : string :=
  match v with
  | PyNone => "None"
  | PyBool true => "True"
  | PyBool false => "False"
  | PyInt z => pretty z
  | PyFloat (FDec m e) => float_repr m e
  | PyFloat FNaN => "nan"
  | PyFloat (FInf false) => "inf"
  | PyFloat (FInf true) => "-inf"
  | PyStr s => "'" +:+ s +:+ "'"
  | PyList l => "[" +:+ str_join ", " (map py_repr_model l) +:+ "]"
  | PyDict d =>
      "{" +:+ str_join ", "
                (map (λ kv, "'" +:+ fst kv +:+ "': " +:+ py_repr_model (snd kv)) d)
      +:+ "}"
  | PyOther _ => "<object>"
  end.

Definition reference_env
    (geocoding : pyval → outcome pyval)
    (forecast : pyval → pyval → outcome pyval)
    (chat : list (list (string * pyval)) → outcome stream) : Env :=
  {| json_loads := json.loads;
     literal_eval := ast.literal_eval;
     py_repr := py_repr_model;
     geocoding_get := geocoding;
     forecast_get := forecast;
     chat_create := chat |}.

(** *** The fan-out as the specification words it *)

(** The entry of one city: what its pipeline returned, or the error entry
    made from what it raised. *)
Definition city_entry (env : Env) (city : pyval) : CityWeatherResult.t :=
  match fst (_get_weather_for_city env city) with
  | Return r => r
  | Raise e =>
      CityWeatherResult.mk city None None
        (Some ("Error processing city '" +:+ fmt env city +:+ "': "
               +:+ exn_msg e))
  end.

(** An entry that reports an error: the text [to_string] gives is the
    error. *)
Definition is_error_entry (r : CityWeatherResult.t) : Prop :=
  CityWeatherResult.location r = None
  ∧ CityWeatherResult.weather_data r = None
  ∧ ∃ a text, CityWeatherResult.error r = Some (String a text).

(** ** Scenarios *)

(** The argument text of a tool call whose [cities] is the string [s]. *)
Definition cities_text_args (s : string) : string :=
  "{" +:+ quoted "cities" +:+ ": " +:+ quoted s +:+ "}".

(** A geocoding service that knows Paris and Tokyo, times out on Atlantis,
    answers Erehwon with a server error, and has no result for any other
    name. *)
Definition example_geocoding (name : pyval) : outcome pyval :=
  match name with
  | PyStr s =>
      if decide (s = "Paris") then
        Return (PyDict [("results",
                  PyList [PyDict [("name", PyStr "Paris");
                                  ("latitude", PyFloat (FDec 4885 (-2)));
                                  ("longitude", PyFloat (FDec 235 (-2)));
                                  ("country", PyStr "France")]])])
      else if decide (s = "Tokyo") then
        Return (PyDict [("results",
                  PyList [PyDict [("name", PyStr "Tokyo");
                                  ("latitude", PyFloat (FDec 3569 (-2)));
                                  ("longitude", PyFloat (FDec 13969 (-2)));
                                  ("country", PyStr "Japan")]])])
      else if decide (s = "Atlantis") then
        Raise (Exn TimeoutException "timed out")
      else if decide (s = "Erehwon") then
        Raise (Exn HTTPError "Server error '500 Internal Server Error'")
      else Return (PyDict [("generationtime_ms", PyFloat (FDec 5 (-1)))])
  | _ => Return (PyDict [("generationtime_ms", PyFloat (FDec 5 (-1)))])
  end.

(** A forecast service that fails for the latitude of Tokyo and answers
    any other request. *)
Definition example_forecast (latitude longitude : pyval) : outcome pyval :=
  match latitude with
  | PyFloat (FDec 3569 (-2)) =>
      Raise (Exn HTTPError "Server error '502 Bad Gateway'")
  | _ =>
      Return (PyDict
                [("current_units",
                  PyDict [("temperature_2m", PyStr "°C");
                          ("relative_humidity_2m", PyStr "%");
                          ("wind_speed_10m", PyStr "km/h");
                          ("precipitation", PyStr "mm")]);
                 ("current",
                  PyDict [("temperature_2m", PyInt 21);
                          ("relative_humidity_2m", PyInt 40);
                          ("apparent_temperature", PyInt 20);
                          ("precipitation", PyInt 0);
                          ("weather_code", PyInt 1);
                          ("wind_speed_10m", PyInt 9)])])
  end.

(** A chat API whose every request times out. *)
Definition timeout_chat (messages : list (list (string * pyval)))
    : outcome stream :=
  Raise (Exn APITimeoutError "Request timed out.").

Definition example_env : Env :=
  reference_env example_geocoding example_forecast timeout_chat.

(** A chat API that answers every request with one tool call for the
    weather tool whose argument text is the array [["Paris"]] instead of an
    object. *)
Definition array_arguments_call : ToolCallDelta.t :=
  ToolCallDelta.mk 0 (Some "call_1") (Some "get_weather")
    (Some ("[" +:+ quoted "Paris" +:+ "]")).

Definition array_arguments_chat (messages : list (list (string * pyval)))
    : outcome stream :=
  Return (Stream [Delta.mk None (Some [array_arguments_call])] None).

(** A tool call for Paris and Qwxyzland, with well-formed arguments. *)
Definition paris_call : ToolInvocation.t :=
  ToolInvocation.mk "call_1"
    (InvokedFunction.mk "get_weather"
       ("{" +:+ quoted "cities" +:+ ": [" +:+ quoted "Paris" +:+ ", "
        +:+ quoted "Qwxyzland" +:+ "]}")).

(** A second call in the same turn. *)
Definition tokyo_call : ToolInvocation.t :=
  ToolInvocation.mk "call_2"
    (InvokedFunction.mk "get_weather"
       ("{" +:+ quoted "cities" +:+ ": [" +:+ quoted "Tokyo" +:+ "]}")).

(** Two tool calls streamed in fragments: slot 1 starts before slot 0, and
    the same fragments with slot 0 first and other chunk boundaries. *)
Definition fragment_a1 : ToolCallDelta.t :=
  ToolCallDelta.mk 0 (Some "call_") (Some "get_") (Some "{").
Definition fragment_a2 : ToolCallDelta.t :=
  ToolCallDelta.mk 0 (Some "1") (Some "weather") None.
Definition fragment_a3 : ToolCallDelta.t :=
  ToolCallDelta.mk 0 None (Some EmptyString) (Some "}").
Definition fragment_b1 : ToolCallDelta.t :=
  ToolCallDelta.mk 1 (Some "call_2") None (Some "[").
Definition fragment_b2 : ToolCallDelta.t :=
  ToolCallDelta.mk 1 None (Some "get_weather") (Some "]").

Definition interleaved_stream : list (list ToolCallDelta.t) :=
  [[fragment_b1; fragment_a1]; [fragment_a2]; [fragment_b2; fragment_a3]].
Definition slot_by_slot_stream : list (list ToolCallDelta.t) :=
  [[fragment_a1; fragment_a2; fragment_a3]; [fragment_b1]; [fragment_b2]].

(** *** What a stream delivers *)

(** The tool-call fragments of a chunk, none when [delta.tool_calls] is
    absent. *)
Definition delta_fragments (delta : Delta.t) : list ToolCallDelta.t :=
  default [] (Delta.tool_calls delta).

(** The text fragments of the chunks that carry one, in order. *)
Definition text_chunks (deltas : list Delta.t) : list string :=
  filter (λ c, str_truthy c = true) (piece_text ∘ Delta.content <$> deltas).

(** A chat API that answers every request with the text [Hello!], in two
    chunks. *)
Definition greeting_chat (messages : list (list (string * pyval)))
    : outcome stream :=
  Return (Stream [Delta.mk (Some "Hel") None; Delta.mk (Some "lo!") (Some [])]
            None).

(** A chat API whose stream breaks after its first chunk. *)
Definition broken_stream_chat (messages : list (list (string * pyval)))
    : outcome stream :=
  Return (Stream [Delta.mk (Some "Hel") None]
            (Some (Exn OtherException "Connection reset"))).

(** A geocoding service whose first result has no latitude. *)
Definition incomplete_geocoding (name : pyval) : outcome pyval :=
  Return (PyDict [("results", PyList [PyDict [("name", PyStr "Paris")]])]).

(** * Properties *)

Arguments caught_by : simpl never.

(** ** Strings *)

Lemma str_append_empty_r (s : string) : s +:+ EmptyString = s.
Proof.
  induction s as [|a s IH]; [done|].
  change (String a (s +:+ EmptyString) = String a s). by rewrite IH.
Qed.

Lemma str_append_assoc (s1 s2 s3 : string) :
  (s1 +:+ s2) +:+ s3 = s1 +:+ (s2 +:+ s3).
Proof.
  induction s1 as [|a s1 IH]; [done|].
  change (String a ((s1 +:+ s2) +:+ s3) = String a (s1 +:+ (s2 +:+ s3))).
  by rewrite IH.
Qed.

(** ** Tool Call Assembler *)

Section assembler_facts.

Implicit Types (buf : gmap Z ToolInvocation.t) (tc : ToolCallDelta.t).
Implicit Types (frs : list ToolCallDelta.t) (inv : ToolInvocation.t).

Lemma when_present_lookup_ne piece upd idx j buf :
  idx ≠ j → when_present piece upd idx buf !! j = buf !! j.
Proof.
  intros Hne. unfold when_present.
  destruct piece as [s|]; [|done].
  destruct (str_truthy s); [|done]. by rewrite lookup_alter_ne.
Qed.

Lemma when_present_lookup_eq piece upd idx buf inv :
  buf !! idx = Some inv →
  (∀ inv', upd EmptyString inv' = inv') →
  when_present piece upd idx buf !! idx = Some (upd (piece_text piece) inv).
Proof.
  intros Hin Hnil. unfold when_present, piece_text.
  destruct piece as [[|a s]|]; simpl; rewrite ?Hnil; try done.
  by rewrite lookup_alter_eq, Hin.
Qed.

Lemma add_id_empty inv : ToolInvocation.add_id EmptyString inv = inv.
Proof.
  destruct inv. unfold ToolInvocation.add_id; simpl.
  by rewrite str_append_empty_r.
Qed.

Lemma add_name_empty inv : ToolInvocation.add_name EmptyString inv = inv.
Proof.
  destruct inv as [i [n a]]. unfold ToolInvocation.add_name; simpl.
  by rewrite str_append_empty_r.
Qed.

Lemma add_arguments_empty inv :
  ToolInvocation.add_arguments EmptyString inv = inv.
Proof.
  destruct inv as [i [n a]]. unfold ToolInvocation.add_arguments; simpl.
  by rewrite str_append_empty_r.
Qed.

Lemma accumulate_fragment_other buf tc j :
  ToolCallDelta.index tc ≠ j → accumulate_fragment buf tc !! j = buf !! j.
Proof.
  intros Hne. unfold accumulate_fragment.
  rewrite !when_present_lookup_ne by done.
  destruct (buf !! ToolCallDelta.index tc); [done|].
  by rewrite lookup_insert_ne.
Qed.

Lemma accumulate_fragment_same buf tc :
  accumulate_fragment buf tc !! ToolCallDelta.index tc
  = Some (apply_pieces
            (default ToolInvocation.new (buf !! ToolCallDelta.index tc)) tc).
Proof.
  unfold accumulate_fragment.
  set (idx := ToolCallDelta.index tc).
  set (buf0 := match buf !! idx with
               | None => <[idx:=ToolInvocation.new]> buf
               | Some _ => buf
               end).
  assert (Hb0 : buf0 !! idx = Some (default ToolInvocation.new (buf !! idx))).
  { unfold buf0. destruct (buf !! idx) eqn:E; simpl; [done|].
    by rewrite lookup_insert_eq. }
  erewrite when_present_lookup_eq; [| |apply add_arguments_empty].
  2:{ erewrite when_present_lookup_eq; [done| |apply add_name_empty].
      erewrite when_present_lookup_eq; [done|exact Hb0|apply add_id_empty]. }
  by destruct (default ToolInvocation.new (buf !! idx)) as [i [n a]].
Qed.

(** The buffer after a run of fragments, slot by slot. *)
Lemma accumulate_lookup frs buf idx :
  _accumulate_tool_call_chunk frs buf !! idx
  = match slot_fragments idx frs with
    | [] => buf !! idx
    | ps => Some (fold_left apply_pieces ps
                    (default ToolInvocation.new (buf !! idx)))
    end.
Proof.
  unfold _accumulate_tool_call_chunk, slot_fragments.
  revert buf. induction frs as [|tc frs IH]; intros buf; simpl; [done|].
  rewrite IH. rewrite filter_cons.
  destruct (decide (ToolCallDelta.index tc = idx)) as [<-|Hne].
  - rewrite accumulate_fragment_same. simpl.
    by destruct (filter _ frs).
  - by rewrite accumulate_fragment_other.
Qed.

Lemma fold_apply_pieces ps inv :
  fold_left apply_pieces ps inv
  = ToolInvocation.mk
      (ToolInvocation.id inv
         +:+ str_concat (piece_text ∘ ToolCallDelta.id <$> ps))
      (InvokedFunction.mk
         (InvokedFunction.name (ToolInvocation.function inv)
            +:+ str_concat (piece_text ∘ ToolCallDelta.function_name <$> ps))
         (InvokedFunction.arguments (ToolInvocation.function inv)
            +:+ str_concat
                  (piece_text ∘ ToolCallDelta.function_arguments <$> ps))).
Proof.
  revert inv. induction ps as [|tc ps IH]; intros [i [n a]]; simpl.
  - by rewrite !str_append_empty_r.
  - rewrite IH. simpl. by rewrite !str_append_assoc.
Qed.

Lemma fold_left_chunks (deltas : list (list ToolCallDelta.t)) buf :
  fold_left (λ b d, _accumulate_tool_call_chunk d b) deltas buf
  = _accumulate_tool_call_chunk (concat deltas) buf.
Proof.
  unfold _accumulate_tool_call_chunk.
  revert buf. induction deltas as [|d ds IH]; intros buf; simpl; [done|].
  by rewrite IH, fold_left_app.
Qed.

(** The buffer at the end of the stream holds, for each slot that received
    a fragment, the invocation the specification describes. *)
Lemma assemble_buffer_lookup deltas idx :
  assemble_buffer deltas !! idx
  = match slot_fragments idx (concat deltas) with
    | [] => None
    | _ => Some (slot_invocation idx (concat deltas))
    end.
Proof.
  unfold assemble_buffer. rewrite fold_left_chunks, accumulate_lookup.
  rewrite lookup_empty. unfold slot_invocation, slot_text.
  destruct (slot_fragments idx (concat deltas)) as [|p ps]; [done|].
  by rewrite fold_apply_pieces.
Qed.

Lemma slot_fragments_occurs idx frs :
  slot_fragments idx frs ≠ []
  ↔ ∃ tc, tc ∈ frs ∧ ToolCallDelta.index tc = idx.
Proof.
  unfold slot_fragments. split.
  - destruct (filter _ frs) as [|tc l] eqn:E; [done|]. intros _.
    assert (tc ∈ filter (λ tc, ToolCallDelta.index tc = idx) frs) as Hf
      by (rewrite E; left).
    apply list_elem_of_filter in Hf as [Hidx Hin]. by exists tc.
  - intros (tc & Hin & Hidx) Hnil.
    assert (tc ∈ filter (λ tc, ToolCallDelta.index tc = idx) frs) as Hf
      by (by apply list_elem_of_filter).
    rewrite Hnil in Hf. inversion Hf.
Qed.

Lemma sorted_keys_elem buf idx : idx ∈ sorted_keys buf ↔ is_Some (buf !! idx).
Proof.
  unfold sorted_keys. rewrite merge_sort_Permutation.
  rewrite list_elem_of_fmap. split.
  - intros [[k v] [-> Hin]]. apply elem_of_map_to_list in Hin. by eexists.
  - intros [v Hv]. exists (idx, v). split; [done|].
    by apply elem_of_map_to_list.
Qed.

Lemma sorted_keys_ascending buf : StronglySorted Z.lt (sorted_keys buf).
Proof.
  unfold sorted_keys.
  assert (Hnd : NoDup (merge_sort Z.le (map_to_list buf).*1)).
  { rewrite merge_sort_Permutation. apply NoDup_fst_map_to_list. }
  assert (Hs : StronglySorted Z.le (merge_sort Z.le (map_to_list buf).*1)).
  { apply StronglySorted_merge_sort; [apply _|].
    intros x y. destruct (Z.le_ge_cases x y); auto. }
  induction Hs as [|x l Hs IH Hall]; [constructor|].
  apply NoDup_cons in Hnd as [Hx Hnd].
  constructor; [by apply IH|].
  apply Forall_forall. intros y Hy.
  rewrite Forall_forall in Hall. specialize (Hall y Hy).
  assert (x ≠ y) by (intros ->; done). lia.
Qed.

Lemma convert_as_map buf (g : Z → ToolInvocation.t) :
  (∀ idx, idx ∈ sorted_keys buf → buf !! idx = Some (g idx)) →
  _convert_tool_calls_buffer buf = g <$> sorted_keys buf.
Proof.
  unfold _convert_tool_calls_buffer.
  induction (sorted_keys buf) as [|k ks IH]; intros Hg; simpl; [done|].
  rewrite (Hg k) by left. simpl. f_equal.
  apply IH. intros idx Hin. apply Hg. by right.
Qed.

End assembler_facts.

(** C1.  For every stream, given as the successive [delta.tool_calls] lists
    and with [frs] the sequence of all fragments in arrival order: the
    finalized list is the list of slot invocations over the strictly
    ascending list of the slot indices that occur in [frs]; the invocation of
    a slot has as id, function name and function arguments the concatenation,
    in arrival order, of the pieces of that slot's fragments (a fresh
    invocation, to which every piece is appended).  Two streams whose
    fragments agree slot by slot, however the slots are interleaved and cut
    into chunks, finalize to the same list. *)
Theorem assembler_finalizes_by_slot (deltas deltas' : list (list ToolCallDelta.t)) :
  (∃ slots : list Z,
      StronglySorted Z.lt slots
      ∧ (∀ idx, idx ∈ slots
                ↔ ∃ tc, tc ∈ concat deltas ∧ ToolCallDelta.index tc = idx)
      ∧ assemble deltas = (λ idx, slot_invocation idx (concat deltas)) <$> slots)
  ∧ ((∀ idx, slot_fragments idx (concat deltas')
             = slot_fragments idx (concat deltas))
     → assemble deltas' = assemble deltas).
Proof.
  split.
  - exists (sorted_keys (assemble_buffer deltas)). split; [|split].
    + apply sorted_keys_ascending.
    + intros idx. rewrite sorted_keys_elem, assemble_buffer_lookup.
      rewrite <- slot_fragments_occurs.
      destruct (slot_fragments idx (concat deltas)) as [|p ps].
      * split; [by intros [? ?]|done].
      * split; [done|by eexists].
    + apply convert_as_map. intros idx Hin.
      apply sorted_keys_elem in Hin as [inv Hinv].
      rewrite assemble_buffer_lookup in Hinv |- *.
      by destruct (slot_fragments idx (concat deltas)).
  - intros Hslots. unfold assemble. f_equal.
    apply map_eq. intros idx. rewrite !assemble_buffer_lookup, Hslots.
    destruct (slot_fragments idx (concat deltas)) as [|p ps]; [done|].
    unfold slot_invocation, slot_text. by rewrite Hslots.
Qed.


(** ** Tool Argument Parser *)

(** C2.  [_parse_tool_arguments] is not total: on the argument text [null],
    which is valid JSON without a [cities] field, it raises [TypeError]; and
    on an object whose [cities] is the JSON-encoded string ["5"] it returns
    with a [cities] value that is the [int] 5, not a list. *)
Theorem parse_tool_arguments_not_total geo wx chat :
  let env := reference_env geo wx chat in
  _parse_tool_arguments env "null"
  = Raise (Exn TypeError "argument of type 'NoneType' is not iterable")
  ∧ _parse_tool_arguments env (cities_text_args "5")
    = Return (ParsedToolArguments.mk (PyInt 5) (PyDict [("cities", PyStr "5")]))
  ∧ is_list (PyInt 5) = false.
Proof. repeat split; reflexivity. Qed.

(** The seven kinds of argument text the specification lists, on a sample
    of each: the parser returns a list. *)
Example parse_samples :
  let parse := _parse_tool_arguments example_env in
  let result cities raw := Return (ParsedToolArguments.mk (PyList cities) raw) in
  parse EmptyString = result [] (PyDict [])
  ∧ parse "{cities" = result [] (PyDict [])
  ∧ parse "{}" = result [] (PyDict [])
  ∧ parse ("{" +:+ quoted "cities" +:+ ": [" +:+ quoted "Paris" +:+ "]}")
    = result [PyStr "Paris"] (PyDict [("cities", PyList [PyStr "Paris"])])
  ∧ parse (cities_text_args "[1]")
    = result [PyInt 1] (PyDict [("cities", PyStr "[1]")])
  ∧ parse (cities_text_args "['London']")
    = result [PyStr "London"] (PyDict [("cities", PyStr "['London']")])
  ∧ parse (cities_text_args "London")
    = result [PyStr "London"] (PyDict [("cities", PyStr "London")]).
Proof. repeat split; reflexivity. Qed.

(** On an argument text that decodes to a JSON object, or does not decode,
    and with a [literal_eval] that only raises [ValueError] or
    [SyntaxError], the parser returns. *)
Lemma parse_tool_arguments_returns_on_objects env arguments_str :
  (∀ s e, literal_eval env s = Raise e →
          caught_by e [ValueError; SyntaxError] = true) →
  (∀ s e, json_loads env s = Raise e → exn_cls e = JSONDecodeError) →
  (∀ v, json_loads env arguments_str = Return v → ∃ d, v = PyDict d) →
  ∃ p, _parse_tool_arguments env arguments_str = Return p.
Proof.
  intros Hlit Hjson Hobj. unfold _parse_tool_arguments.
  assert (∃ d, try_except (json_loads env arguments_str)
                 [JSONDecodeError; AttributeError] (λ _, Return (PyDict []))
               = Return (PyDict d)) as [d ->].
  { unfold try_except. destruct (json_loads env arguments_str) as [v|e] eqn:E.
    - destruct (Hobj v eq_refl) as [d ->]. by exists d.
    - apply Hjson in E. destruct e as [c m]; simpl in E; subst c.
      by exists []. }
  cbn [obind]. unfold cities_is. cbn [obind py_contains_str py_getitem_str].
  destruct (dict_get "cities" d) as [c|] eqn:Ec; cbn; [|by eexists].
  destruct c; cbn; try (by eexists).
  unfold decode_cities_text, try_except.
  destruct (json_loads env s) as [v|e] eqn:Ej; cbn; [by eexists|].
  apply Hjson in Ej. destruct e as [c m]; simpl in Ej; subst c. cbn.
  destruct (literal_eval env s) as [v|e'] eqn:El; cbn.
  - destruct (is_list v); cbn; by eexists.
  - apply Hlit in El. rewrite El. by eexists.
Qed.

(** ** Calls that act on the outside *)

Lemma io_bind_return {A B} (m : io A) (k : A → io B) b evs :
  io_bind m k = (Return b, evs) →
  ∃ a e1 e2, m = (Return a, e1) ∧ k a = (Return b, e2) ∧ evs = e1 ++ e2.
Proof.
  unfold io_bind. destruct m as [[a|e] e1]; [|done].
  destruct (k a) as [r e2] eqn:Ek. intros [= -> <-]. by exists a, e1, e2.
Qed.

Lemma io_lift_return {A} (m : outcome A) a evs :
  io_lift m = (Return a, evs) → m = Return a ∧ evs = [].
Proof. unfold io_lift. by intros [= -> <-]. Qed.

Lemma io_bind_emit {B} (ev : event) (k : unit → io B) :
  io_bind (emit ev) k = (fst (k tt), ev :: snd (k tt)).
Proof. unfold io_bind, emit. by destruct (k tt). Qed.

Lemma io_bind_fst {A B} (m : io A) (k : A → io B) :
  fst (io_bind m k)
  = match fst m with Return a => fst (k a) | Raise e => Raise e end.
Proof. destruct m as [[a|e] evs]; cbn; [|done]. by destruct (k a). Qed.

Lemma io_bind_snd {A B} (m : io A) (k : A → io B) :
  snd (io_bind m k)
  = snd m ++ match fst m with Return a => snd (k a) | Raise e => [] end.
Proof.
  destruct m as [[a|e] evs]; cbn; [|by rewrite app_nil_r]. by destruct (k a).
Qed.

Lemma io_try_all_fst {A} (m : io A) (h : exn → io A) :
  fst (io_try_all m h)
  = match fst m with Return a => Return a | Raise e => fst (h e) end.
Proof. destruct m as [[a|e] evs]; cbn; [done|]. by destruct (h e). Qed.

(** ** Conversation Transcript *)

Lemma convert_nonempty (buf : gmap Z ToolInvocation.t) :
  buf ≠ ∅ → ∃ first rest, _convert_tool_calls_buffer buf = first :: rest.
Proof.
  intros Hne.
  destruct (_convert_tool_calls_buffer buf) as [|first rest] eqn:E;
    [|by eexists _, _].
  exfalso. apply Hne. apply map_eq. intros idx. rewrite lookup_empty.
  destruct (buf !! idx) as [inv|] eqn:Hidx; [|done].
  assert (idx ∈ sorted_keys buf) as Hin by (apply sorted_keys_elem; eauto).
  rewrite (convert_as_map buf (λ i, default inv (buf !! i))) in E.
  - destruct (sorted_keys buf); [inversion Hin | done].
  - intros i Hi. apply sorted_keys_elem in Hi as [x ->]. done.
Qed.

(** What [_handle_stream_response] appends first is the assistant message
    of the turn. *)
Lemma handle_stream_response_appends env content
    (buf : gmap Z ToolInvocation.t) history :
  ∃ tool_calls rest,
    snd (fst (_handle_stream_response env content buf history))
    = history
      ++ Message.mk MessageRole.ASSISTANT (content_or_none content)
           tool_calls None None :: rest
    ∧ (buf = ∅ → tool_calls = None ∧ rest = [])
    ∧ (buf ≠ ∅ → ∃ first others, tool_calls = Some (first :: others)).
Proof.
  unfold _handle_stream_response.
  destruct (decide (buf = ∅)) as [->|Hne].
  - exists None, []. by repeat split.
  - destruct (convert_nonempty buf Hne) as (first & others & ->).
    set (msg := Message.mk _ _ _ _ _).
    destruct (_handle_tool_calls env (first :: others) (history ++ [msg]))
      as [[r h] evs] eqn:Eh.
    assert (∃ tl, h = history ++ msg :: tl) as [tl ->].
    { unfold _handle_tool_calls in Eh.
      destruct (_execute_tool_call env first) as [[d|e] evs'].
      - destruct (sdict_get "role" d).
        + injection Eh as <- <- <-. eexists [_]. by rewrite <- app_assoc.
        + injection Eh as <- <- <-. by exists [].
      - injection Eh as <- <- <-. by exists []. }
    eexists _, tl. split; [by destruct r|]. split; [done|].
    intros _. by eexists _, _.
Qed.

(** C4.  The check that the claim names is made by [Message.to_dict], not
    when a message is constructed: [to_dict] raises, and then it is the
    [ValueError] of the invariant, exactly on the assistant messages whose
    content is absent or empty and whose tool calls are absent or empty.
    The assistant message that [_handle_stream_response] appends has
    content exactly when the stream gave text and tool calls exactly when
    it gave a tool-call fragment; so it is a message that [to_dict] rejects
    exactly when the stream gave neither, and nothing keeps that message
    out of the transcript. *)
Theorem assistant_message_checked_by_to_dict :
  let rejected :=
    Exn ValueError "Assistant message must have either content or tool_calls" in
  (∀ m, Message.to_dict m = Raise rejected
        ↔ Message.role m = MessageRole.ASSISTANT
          ∧ Message.has_content m = false
          ∧ Message.has_tool_calls m = false)
  ∧ (∀ m e, Message.to_dict m = Raise e → e = rejected)
  ∧ (∀ env content (buf : gmap Z ToolInvocation.t) history,
       ∃ m rest,
         snd (fst (_handle_stream_response env content buf history))
         = history ++ m :: rest
         ∧ Message.role m = MessageRole.ASSISTANT
         ∧ (Message.has_content m = true ↔ content ≠ EmptyString)
         ∧ (Message.has_tool_calls m = true ↔ buf ≠ ∅)
         ∧ (Message.to_dict m = Raise rejected
            ↔ content = EmptyString ∧ buf = ∅)).
Proof.
  intros rejected.
  assert (Hiff : ∀ m, Message.to_dict m = Raise rejected
                      ↔ Message.role m = MessageRole.ASSISTANT
                        ∧ Message.has_content m = false
                        ∧ Message.has_tool_calls m = false).
  { intros m. unfold Message.to_dict.
    destruct (bool_decide (Message.role m = MessageRole.ASSISTANT)) eqn:Hr;
      destruct (Message.has_content m), (Message.has_tool_calls m); simpl;
      try apply bool_decide_eq_true in Hr;
      try apply bool_decide_eq_false in Hr;
      split; try done; by intros (? & ? & ?). }
  split; [exact Hiff|]. split.
  { intros m e. unfold Message.to_dict.
    destruct (_ && _ && _); [by intros [= <-]|done]. }
  intros env content buf history.
  destruct (handle_stream_response_appends env content buf history)
    as (tool_calls & rest & Happ & Hempty & Hcalls).
  eexists _, rest. split; [exact Happ|]. split; [done|].
  assert (Hc : Message.has_content
                 (Message.mk MessageRole.ASSISTANT (content_or_none content)
                    tool_calls None None) = true
               ↔ content ≠ EmptyString) by (by destruct content).
  assert (Ht : Message.has_tool_calls
                 (Message.mk MessageRole.ASSISTANT (content_or_none content)
                    tool_calls None None) = true
               ↔ buf ≠ ∅).
  { destruct (decide (buf = ∅)) as [Hb|Hb].
    - destruct (Hempty Hb) as [-> _]. by split.
    - destruct (Hcalls Hb) as (first & others & ->). by split. }
  split; [exact Hc|]. split; [exact Ht|].
  rewrite Hiff. split.
  - intros (_ & Hnc & Hnt). split.
    + destruct content; [done|]. by destruct (proj2 Hc).
    + destruct (decide (buf = ∅)) as [Hb|Hb]; [done|].
      apply Ht in Hb. congruence.
  - intros [-> ->]. split; [done|]. split; [done|].
    by destruct (Hempty eq_refl) as [-> _].
Qed.

(** ** External Data Client *)

(** C6, the claim as stated fails: a name without result, a request that
    times out and a request that fails all give the same returned value,
    [None]. *)
Lemma not_found_and_transport_failure_return_the_same :
  fst (get_coordinates example_env (PyStr "Qwxyzland")) = Return None
  ∧ fst (get_coordinates example_env (PyStr "Atlantis")) = Return None
  ∧ fst (get_coordinates example_env (PyStr "Erehwon")) = Return None.
Proof. repeat split; reflexivity. Qed.

(** C6, as the code has it.  [get_coordinates] returns [None] when the
    response has no results, when the request times out and when it fails
    with an HTTP error; the three cases differ only by the diagnostic line
    printed on a timeout and on a failure. *)
Theorem get_coordinates_none_on_not_found_and_on_failure env city :
  (∀ d, geocoding_get env city = Return (PyDict d) →
        py_truthy (default PyNone (dict_get "results" d)) = false →
        get_coordinates env city = (Return None, [EvGeocoding city]))
  ∧ (∀ e, geocoding_get env city = Raise e →
          exn_cls e = TimeoutException →
          get_coordinates env city
          = (Return None,
             [EvGeocoding city;
              EvPrint ((nl +:+ "[System Error] Geocoding API timeout: "
                        +:+ exn_msg e) +:+ nl)]))
  ∧ (∀ e, geocoding_get env city = Raise e →
          exn_cls e = HTTPError →
          get_coordinates env city
          = (Return None,
             [EvGeocoding city;
              EvPrint ((nl +:+ "[System Error] Geocoding API failed: "
                        +:+ exn_msg e) +:+ nl)])).
Proof.
  unfold get_coordinates. repeat split.
  - intros d -> Hfalsy. cbn. by rewrite Hfalsy.
  - intros [c m] -> Hc. simpl in Hc. subst c. reflexivity.
  - intros [c m] -> Hc. simpl in Hc. subst c. reflexivity.
Qed.

(** ** Interaction Loop *)

(** C7.  When the chat-completion request made for the transcript fails
    with a request timeout, the turn ends the loop and the transcript is left
    as it was: after [process_message] it is the transcript before the call
    followed by the user message, and nothing else. *)
Theorem request_timeout_appends_nothing env fuel history messages e :
  omapM Message.to_dict history = Return messages →
  chat_create env messages = Raise e →
  exn_cls e = APITimeoutError →
  let printed :=
    EvPrint ((nl +:+ "[System Error] API request timeout: " +:+ exn_msg e)
             +:+ nl) in
  turn env history = (Return false, history, [EvChat messages; printed])
  ∧ _run_interaction_loop env (S fuel) history
    = Some (history, [EvChat messages; printed])
  ∧ (∀ prior user_input,
       history
       = prior ++ [Message.mk MessageRole.USER (Some user_input) None None None] →
       process_message env (S fuel) user_input prior
       = Some (history, [EvChat messages; printed])).
Proof.
  intros Hmsgs Hchat Hcls printed.
  assert (Hturn : turn env history
                  = (Return false, history, [EvChat messages; printed])).
  { unfold turn, _create_api_stream. rewrite Hmsgs. cbn. rewrite Hchat.
    destruct e as [c m]. simpl in Hcls. subst c. reflexivity. }
  split; [done|]. split.
  - simpl. by rewrite Hturn.
  - intros prior user_input Hh. unfold process_message. rewrite <- Hh.
    simpl. by rewrite Hturn.
Qed.

(** ** Tool Executor *)

(** Whatever [_run_weather_tool] returns is a tool response for its call. *)
Lemma run_weather_tool_response env params d evs :
  _run_weather_tool env params = (Return d, evs) →
  ∃ content,
    d = ToolCallResponse.to_dict
          (ToolCallResponse.mk (WeatherToolParams.call_id params)
             MessageRole.TOOL WEATHER_TOOL_NAME content).
Proof.
  unfold _run_weather_tool. intros H.
  apply io_bind_return in H as (cities & e1 & e2 & _ & H & _).
  destruct cities as [|c cs].
  - injection H as <- _. by eexists.
  - apply io_bind_return in H as (rs & e3 & e4 & _ & H & _).
    apply io_bind_return in H as (content & e5 & e6 & _ & H & _).
    injection H as <- _. by eexists.
Qed.

(** Whatever [_execute_tool_call] returns is a tool response that carries
    the id of the call. *)
Lemma execute_tool_call_response env tool_call d evs :
  _execute_tool_call env tool_call = (Return d, evs) →
  ∃ name content,
    d = ToolCallResponse.to_dict
          (ToolCallResponse.mk (ToolInvocation.id tool_call)
             MessageRole.TOOL name content).
Proof.
  unfold _execute_tool_call. intros H.
  apply io_bind_return in H as (p & e1 & e2 & _ & H & _).
  destruct (bool_decide _).
  - apply io_bind_return in H as (args & e3 & e4 & _ & H & _).
    apply run_weather_tool_response in H as [content ->]. by eexists _, _.
  - injection H as <- _. by eexists _, _.
Qed.

(** C9.  For a tool call whose function is not the weather tool,
    [_execute_tool_call] does what the argument parser does: when the parser
    returns, the fixed error is the tool result, carrying the id of the call;
    when the parser raises, [_execute_tool_call] raises, because the
    arguments are parsed before the function name is looked at. *)
Theorem execute_unknown_tool_follows_parser env tool_call :
  InvokedFunction.name (ToolInvocation.function tool_call) ≠ WEATHER_TOOL_NAME →
  _execute_tool_call env tool_call
  = match _parse_tool_arguments env
            (InvokedFunction.arguments (ToolInvocation.function tool_call)) with
    | Return _ =>
        (Return (ToolCallResponse.to_dict
                   (ToolCallResponse.mk (ToolInvocation.id tool_call)
                      MessageRole.TOOL
                      (InvokedFunction.name (ToolInvocation.function tool_call))
                      "Error: Unknown function requested.")), [])
    | Raise e => (Raise e, [])
    end.
Proof.
  intros Hname. unfold _execute_tool_call.
  destruct (_parse_tool_arguments env _) as [p|e]; [|done].
  cbn. by rewrite bool_decide_eq_false_2.
Qed.

(** C5.  The normalized city list is empty when [cities] is absent, when it
    is an empty list, and when it is a falsy value that is not a list.
    Whenever it is empty, [_run_weather_tool] returns one tool result, whose
    content is the fixed message, and does nothing else: no lookup is made. *)
Theorem no_cities_gives_one_error env params :
  (∀ d, _validate_and_normalize_cities (PyDict d) = Return []
        ↔ dict_get "cities" d = None ∨ dict_get "cities" d = Some (PyList [])
          ∨ (∃ c, dict_get "cities" d = Some c ∧ is_list c = false
                  ∧ py_truthy c = false))
  ∧ (_validate_and_normalize_cities (WeatherToolParams.arguments params)
     = Return [] →
     _run_weather_tool env params
     = (Return [("tool_call_id", WeatherToolParams.call_id params);
                ("role", "tool"); ("name", "get_weather");
                ("content", "Error: No cities provided.")], [])).
Proof.
  split.
  - intros d. unfold _validate_and_normalize_cities. cbn. split.
    + destruct (dict_get "cities" d) as [c|]; cbn; [|by left].
      intros H. right.
      destruct c as [| | | | |l| |]; cbn in H;
        try (right; eexists; split; [done|]; split; [done|];
             cbn; by destruct (_ : bool)).
      left. by injection H as ->.
    + intros [H|[H|(c & H & Hl & Ht)]]; rewrite H; cbn; try done.
      destruct c; try done; cbn in *; by rewrite Ht.
  - intros H. unfold _run_weather_tool. by rewrite H.
Qed.

(** *** Fan-out *)

Section fan_out.

Variable env : Env.

Lemma process_from_entries (cities pre post : list pyval) :
  cities = pre ++ post →
  process_from env (length pre) cities
    (fst <$> (_get_weather_for_city env <$> post))
  = Return (city_entry env <$> post).
Proof.
  revert pre. induction post as [|c post IH]; intros pre Hc; [done|].
  assert (Hi : cities !! length pre = Some c)
    by (subst cities; apply list_lookup_middle; done).
  cbn [fmap list_fmap process_from].
  specialize (IH (pre ++ [c])).
  rewrite length_app, Nat.add_1_r in IH.
  rewrite IH by (by rewrite <- app_assoc).
  unfold city_entry. rewrite Hi.
  by destruct (fst (_get_weather_for_city env c)).
Qed.

(** The fan-out returns the entries of the cities, in their order. *)
Lemma fetch_weather_for_cities_entries (cities : list pyval) :
  _fetch_weather_for_cities env cities
  = (Return (city_entry env <$> cities),
     [EvGather (snd <$> (_get_weather_for_city env <$> cities))]).
Proof.
  unfold _fetch_weather_for_cities, _process_city_results.
  pose proof (process_from_entries cities [] cities eq_refl) as H.
  change (length (@nil pyval)) with 0%nat in H. cbn. by rewrite H.
Qed.

Lemma get_coordinates_events (city : pyval) :
  ∃ r rest, get_coordinates env city = (r, EvGeocoding city :: rest).
Proof.
  unfold get_coordinates, io_try2. rewrite io_bind_emit.
  match goal with
  | |- context [fst ?x] => destruct (fst x) as [a|e]
  end; [by eexists _, _|].
  destruct (caught_by e [TimeoutException]); [by eexists _, _|].
  destruct (caught_by e [HTTPError]); by eexists _, _.
Qed.

(** Every pipeline starts: it announces its city and asks for its
    coordinates. *)
Lemma get_weather_for_city_events (city : pyval) :
  ∃ rest,
    snd (_get_weather_for_city env city)
    = EvPrint (("[Calling " +:+ WEATHER_TOOL_NAME +:+ " for "
                +:+ fmt env city +:+ "...]") +:+ nl)
      :: EvGeocoding city :: rest.
Proof.
  unfold _get_weather_for_city, geocode_and_fetch, print, write.
  rewrite io_bind_emit. cbn [snd]. rewrite io_bind_snd.
  destruct (get_coordinates_events city) as (r & rest & ->).
  cbn [fst snd]. by eexists.
Qed.

(** What the two steps of a pipeline return or raise. *)
Lemma geocode_and_fetch_result (city : pyval) :
  fst (geocode_and_fetch env city)
  = match fst (get_coordinates env city) with
    | Raise e => Raise e
    | Return None =>
        Return (CityWeatherResult.mk city None None
                  (Some ("Error: Could not find coordinates for city '"
                         +:+ fmt env city +:+ "'.")))
    | Return (Some loc) =>
        match fst (get_current_weather env (Location.latitude loc)
                     (Location.longitude loc)) with
        | Return w =>
            Return (CityWeatherResult.mk city (Some loc) (Some w) None)
        | Raise e =>
            Return (CityWeatherResult.mk city None None
                      (Some ("Error fetching weather data for "
                             +:+ fmt env city +:+ ": " +:+ exn_msg e)))
        end
    end.
Proof.
  unfold geocode_and_fetch. rewrite io_bind_fst.
  destruct (fst (get_coordinates env city)) as [[loc|]|e]; [|done..].
  rewrite io_try_all_fst, io_bind_fst.
  by destruct (fst (get_current_weather env _ _)).
Qed.

(** What a pipeline returns or raises. *)
Lemma get_weather_for_city_result (city : pyval) :
  fst (_get_weather_for_city env city)
  = match fst (get_coordinates env city) with
    | Raise e => Raise e
    | Return None =>
        Return (CityWeatherResult.mk city None None
                  (Some ("Error: Could not find coordinates for city '"
                         +:+ fmt env city +:+ "'.")))
    | Return (Some loc) =>
        match fst (get_current_weather env (Location.latitude loc)
                     (Location.longitude loc)) with
        | Return w =>
            Return (CityWeatherResult.mk city (Some loc) (Some w) None)
        | Raise e =>
            Return (CityWeatherResult.mk city None None
                      (Some ("Error fetching weather data for "
                             +:+ fmt env city +:+ ": " +:+ exn_msg e)))
        end
    end.
Proof.
  unfold _get_weather_for_city, print, write.
  rewrite io_bind_emit. cbn [fst]. apply geocode_and_fetch_result.
Qed.

(** The entry of a city, case by case. *)
Lemma city_entry_cases (city : pyval) :
  CityWeatherResult.city (city_entry env city) = city
  ∧ (fst (get_coordinates env city) = Return None →
     city_entry env city
     = CityWeatherResult.mk city None None
         (Some ("Error: Could not find coordinates for city '"
                +:+ fmt env city +:+ "'.")))
  ∧ (∀ e, fst (get_coordinates env city) = Raise e →
          city_entry env city
          = CityWeatherResult.mk city None None
              (Some ("Error processing city '" +:+ fmt env city +:+ "': "
                     +:+ exn_msg e)))
  ∧ (∀ loc e,
       fst (get_coordinates env city) = Return (Some loc) →
       fst (get_current_weather env (Location.latitude loc)
              (Location.longitude loc)) = Raise e →
       city_entry env city
       = CityWeatherResult.mk city None None
           (Some ("Error fetching weather data for " +:+ fmt env city
                  +:+ ": " +:+ exn_msg e)))
  ∧ (∀ loc w,
       fst (get_coordinates env city) = Return (Some loc) →
       fst (get_current_weather env (Location.latitude loc)
              (Location.longitude loc)) = Return w →
       city_entry env city
       = CityWeatherResult.mk city (Some loc) (Some w) None).
Proof.
  unfold city_entry. rewrite get_weather_for_city_result.
  repeat split.
  - destruct (fst (get_coordinates env city)) as [[loc|]|e]; [|done..].
    by destruct (fst (get_current_weather env _ _)).
  - by intros ->.
  - by intros e ->.
  - by intros loc e -> ->.
  - by intros loc w -> ->.
Qed.

End fan_out.

Lemma get_coordinates_ext env env' city :
  geocoding_get env' city = geocoding_get env city →
  get_coordinates env' city = get_coordinates env city.
Proof. intros H. unfold get_coordinates. by rewrite H. Qed.

Lemma get_current_weather_ext env env' latitude longitude :
  forecast_get env' latitude longitude = forecast_get env latitude longitude →
  get_current_weather env' latitude longitude
  = get_current_weather env latitude longitude.
Proof. intros H. unfold get_current_weather. by rewrite H. Qed.

Lemma fmt_ext env env' v :
  (∀ x, py_repr env' x = py_repr env x) → fmt env' v = fmt env v.
Proof. intros H. unfold fmt. destruct v; auto. Qed.

(** The entry of a city depends on the services only through the answers to
    the requests of that city's own pipeline. *)
Lemma city_entry_ext env env' city :
  (∀ x, py_repr env' x = py_repr env x) →
  geocoding_get env' city = geocoding_get env city →
  (∀ loc, fst (get_coordinates env city) = Return (Some loc) →
          forecast_get env' (Location.latitude loc) (Location.longitude loc)
          = forecast_get env (Location.latitude loc) (Location.longitude loc)) →
  city_entry env' city = city_entry env city.
Proof.
  intros Hrepr Hgeo Hwx. unfold city_entry.
  rewrite !get_weather_for_city_result.
  rewrite (get_coordinates_ext env env' city Hgeo).
  rewrite !(fmt_ext env env' city Hrepr).
  destruct (fst (get_coordinates env city)) as [[loc|]|e] eqn:Egc; try done.
  by rewrite (get_current_weather_ext env env' _ _ (Hwx loc eq_refl)).
Qed.

Lemma get_coordinates_transport_failure env city e :
  geocoding_get env city = Raise e →
  exn_cls e = TimeoutException ∨ exn_cls e = HTTPError →
  fst (get_coordinates env city) = Return None.
Proof.
  intros Hgeo Hcls. unfold get_coordinates. rewrite Hgeo.
  destruct e as [c m]. simpl in Hcls. by destruct Hcls; subst c.
Qed.

(** C3.  For every list of cities the fan-out returns one entry per city, in
    the order of the cities: the entry at index [i] is the entry of the city
    at index [i] and names that city.  A city whose name is resolved and
    whose weather is fetched gets the entry that holds that location and
    that weather, and no error.  A city that is not found or whose
    resolution fails in transport, a city whose pipeline raises, as it does
    when the resolution raises, and a city whose weather fetch fails each
    get the error entry of their own case, which names the city.  The entry of a city depends on the services only
    through the answers to that city's own requests, so what happens to the
    other cities changes neither its presence, its place nor its outcome.
    All pipelines are run: the one gather holds, for every city, a task that
    asked for that city's coordinates. *)
Theorem fan_out_keeps_every_city_in_order env env' cities :
  let results := city_entry env <$> cities in
  let tasks := snd <$> (_get_weather_for_city env <$> cities) in
  let not_found city :=
    CityWeatherResult.mk city None None
      (Some ("Error: Could not find coordinates for city '"
             +:+ fmt env city +:+ "'.")) in
  _fetch_weather_for_cities env cities = (Return results, [EvGather tasks])
  ∧ length results = length cities
  ∧ length tasks = length cities
  ∧ ∀ i city,
      cities !! i = Some city →
      results !! i = Some (city_entry env city)
      ∧ CityWeatherResult.city (city_entry env city) = city
      ∧ (∀ loc w,
           fst (get_coordinates env city) = Return (Some loc) →
           fst (get_current_weather env (Location.latitude loc)
                  (Location.longitude loc)) = Return w →
           city_entry env city
           = CityWeatherResult.mk city (Some loc) (Some w) None
           ∧ ¬ is_error_entry (city_entry env city))
      ∧ (fst (get_coordinates env city) = Return None →
         city_entry env city = not_found city
         ∧ is_error_entry (city_entry env city))
      ∧ (∀ e, geocoding_get env city = Raise e →
              exn_cls e = TimeoutException ∨ exn_cls e = HTTPError →
              city_entry env city = not_found city
              ∧ is_error_entry (city_entry env city))
      ∧ (∀ e, fst (_get_weather_for_city env city) = Raise e
              ∨ fst (get_coordinates env city) = Raise e →
              city_entry env city
              = CityWeatherResult.mk city None None
                  (Some ("Error processing city '" +:+ fmt env city +:+ "': "
                         +:+ exn_msg e))
              ∧ is_error_entry (city_entry env city))
      ∧ (∀ loc e,
           fst (get_coordinates env city) = Return (Some loc) →
           fst (get_current_weather env (Location.latitude loc)
                  (Location.longitude loc)) = Raise e →
           city_entry env city
           = CityWeatherResult.mk city None None
               (Some ("Error fetching weather data for " +:+ fmt env city
                      +:+ ": " +:+ exn_msg e))
           ∧ is_error_entry (city_entry env city))
      ∧ (∃ rest,
           tasks !! i
           = Some (EvPrint (("[Calling " +:+ WEATHER_TOOL_NAME +:+ " for "
                             +:+ fmt env city +:+ "...]") +:+ nl)
                   :: EvGeocoding city :: rest))
      ∧ ((∀ x, py_repr env' x = py_repr env x) →
         geocoding_get env' city = geocoding_get env city →
         (∀ loc, fst (get_coordinates env city) = Return (Some loc) →
                 forecast_get env' (Location.latitude loc)
                   (Location.longitude loc)
                 = forecast_get env (Location.latitude loc)
                     (Location.longitude loc)) →
         (city_entry env' <$> cities) !! i = Some (city_entry env city)).
Proof.
  intros results tasks not_found.
  split; [apply fetch_weather_for_cities_entries|].
  split; [apply length_fmap|].
  split; [unfold tasks; by rewrite !length_fmap|].
  intros i city Hi.
  destruct (city_entry_cases env city)
    as (Hcity & Hnone & Hraise & Hfetch & Hok).
  assert (Herr : ∀ a text,
            is_error_entry
              (CityWeatherResult.mk city None None (Some (String a text))))
    by (intros a text; repeat split; by eexists _, _).
  assert (Hnf : fst (get_coordinates env city) = Return None →
                city_entry env city = not_found city
                ∧ is_error_entry (city_entry env city)).
  { intros H. rewrite (Hnone H). split; [done|]. apply Herr. }
  split; [unfold results; by rewrite list_lookup_fmap, Hi|].
  split; [done|]. split.
  { intros loc w H1 H2. rewrite (Hok loc w H1 H2). split; [done|].
    by intros (Hloc & _). }
  split; [done|]. split.
  { intros e Hgeo Hcls. apply Hnf.
    by apply get_coordinates_transport_failure with e. }
  split.
  { intros e [H|H]; [|rewrite (Hraise e H); split; [done|]; apply Herr].
    unfold city_entry. rewrite H. split; [done|]. apply Herr. }
  split.
  { intros loc e H1 H2. rewrite (Hfetch loc e H1 H2). split; [done|].
    apply Herr. }
  split.
  { destruct (get_weather_for_city_events env city) as [rest Hrest].
    exists rest. unfold tasks. rewrite !list_lookup_fmap, Hi. cbn.
    by f_equal. }
  intros Hrepr Hgeo Hwx. rewrite list_lookup_fmap, Hi. cbn.
  by rewrite (city_entry_ext env env' city Hrepr Hgeo Hwx).
Qed.

(** The example of the specification: Paris succeeds, Qwxyzland is not
    found, the weather fetch fails for Tokyo. *)
Example fan_out_paris_qwxyzland_tokyo :
  omapM (CityWeatherResult.to_string example_env)
    (city_entry example_env <$> [PyStr "Paris"; PyStr "Qwxyzland"; PyStr "Tokyo"])
  = Return
      ["Weather for Paris, France:" +:+ nl
       +:+ "Temperature: 21 °C" +:+ nl +:+ "Feels like: 20 °C" +:+ nl
       +:+ "Humidity: 40 %" +:+ nl +:+ "Wind Speed: 9 km/h" +:+ nl
       +:+ "Precipitation: 0 mm";
       "Error: Could not find coordinates for city 'Qwxyzland'.";
       "Error fetching weather data for Tokyo: Error fetching weather data: "
       +:+ "Server error '502 Bad Gateway'"].
Proof. vm_compute. reflexivity. Qed.

(** ** Single tool call per turn *)

Lemma tool_response_fields (r : ToolCallResponse.t) :
  let d := ToolCallResponse.to_dict r in
  sdict_get "role" d = Some (ToolCallResponse.role r)
  ∧ sdict_get "content" d = Some (ToolCallResponse.content r)
  ∧ sdict_get "tool_call_id" d = Some (ToolCallResponse.tool_call_id r)
  ∧ sdict_get "name" d = Some (ToolCallResponse.name r).
Proof. repeat split; reflexivity. Qed.

(** The model turn that follows a turn which asks to continue. *)
Lemma loop_continues env fuel history h evs :
  turn env history = (Return true, h, evs) →
  _run_interaction_loop env (S fuel) history
  = match _run_interaction_loop env fuel h with
    | Some (h', evs') => Some (h', evs ++ evs')
    | None => None
    end.
Proof. intros H. simpl. by rewrite H. Qed.

(** C8, at an argument text that is JSON but not an object: the model asks
    for the weather tool with the argument text [["Paris"]]; executing that
    call raises, no tool-result message is appended after the assistant
    message, and the loop ends in its handler without another model turn. *)
Lemma tool_call_that_raises_gets_no_result :
  process_message
    (reference_env example_geocoding example_forecast array_arguments_chat)
    3 "Weather in Paris?" []
  = Some
      ([Message.mk "user" (Some "Weather in Paris?") None None None;
        Message.mk "assistant" None
          (Some [PyDict
                   [("id", PyStr "call_1"); ("type", PyStr "function");
                    ("function",
                     PyDict [("name", PyStr "get_weather");
                             ("arguments",
                              PyStr ("[" +:+ quoted "Paris" +:+ "]"))])]])
          None None],
       [EvChat [[("role", PyStr "user");
                 ("content", PyStr "Weather in Paris?")]];
        EvPrint "Assistant: ";
        EvPrint nl;
        EvPrint ("Unexpected error: 'list' object has no attribute 'get'"
                 +:+ nl)]).
Proof. vm_compute. reflexivity. Qed.

(** C8.  Whenever the assembled tool-call list is not empty, only its first
    call, in slot order, is executed: the events of the turn's tool
    execution are those of executing that call, whatever the other calls
    are.  When executing it returns, exactly one tool-result message,
    carrying the id of that call, is appended after the assistant message,
    and the loop goes on with another model turn on that transcript.  When
    executing it raises, no tool-result message is appended: only the
    assistant message has been, the exception reaches the handler of
    [_run_interaction_loop], and the loop ends there with its diagnostic
    line instead of going on. *)
Theorem only_first_tool_call_is_executed env content
    (buf : gmap Z ToolInvocation.t) history :
  buf ≠ ∅ →
  ∃ first rest,
    _convert_tool_calls_buffer buf = first :: rest
    ∧ let assistant_msg :=
        Message.mk MessageRole.ASSISTANT (content_or_none content)
          (Some (to_history_dict <$> first :: rest)) None None in
      let tool_msg name text :=
        Message.mk MessageRole.TOOL (Some text) None
          (Some (ToolInvocation.id first)) (Some name) in
      (∀ d evs,
         _execute_tool_call env first = (Return d, evs) →
         ∃ name text,
           d = ToolCallResponse.to_dict
                 (ToolCallResponse.mk (ToolInvocation.id first)
                    MessageRole.TOOL name text)
           ∧ _handle_stream_response env content buf history
             = (Return true,
                history ++ [assistant_msg; tool_msg name text], evs)
           ∧ ∀ fuel s evs0 evs1,
               _create_api_stream env history = (Return (Some s), evs0) →
               _process_stream s = (Return (content, buf), evs1) →
               _run_interaction_loop env (S fuel) history
               = match _run_interaction_loop env fuel
                         (history ++ [assistant_msg; tool_msg name text]) with
                 | Some (h', evs') => Some (h', (evs0 ++ evs1 ++ evs) ++ evs')
                 | None => None
                 end)
      ∧ (∀ e evs,
           _execute_tool_call env first = (Raise e, evs) →
           _handle_stream_response env content buf history
           = (Raise e, history ++ [assistant_msg], evs)
           ∧ ∀ fuel s evs0 evs1,
               _create_api_stream env history = (Return (Some s), evs0) →
               _process_stream s = (Return (content, buf), evs1) →
               _run_interaction_loop env (S fuel) history
               = Some (history ++ [assistant_msg],
                       (evs0 ++ evs1 ++ evs)
                       ++ [EvPrint (CLI_UNEXPECTED_ERROR (exn_msg e) +:+ nl)])).
Proof.
  intros Hne. destruct (convert_nonempty buf Hne) as (first & rest & Hconv).
  exists first, rest. split; [done|]. intros assistant_msg tool_msg. split.
  - intros d evs Hexec.
    destruct (execute_tool_call_response env first d evs Hexec)
      as (name & text & ->).
    exists name, text. split; [done|].
    assert (Hresp : _handle_stream_response env content buf history
                    = (Return true,
                       history ++ [assistant_msg; tool_msg name text], evs)).
    { unfold _handle_stream_response.
      destruct (decide (buf = ∅)) as [?|_]; [done|].
      rewrite Hconv. unfold _handle_tool_calls. rewrite Hexec.
      destruct (tool_response_fields
                  (ToolCallResponse.mk (ToolInvocation.id first)
                     MessageRole.TOOL name text)) as (-> & -> & -> & ->).
      cbn. by rewrite <- app_assoc. }
    split; [done|]. intros fuel s evs0 evs1 Hcreate Hstream.
    apply loop_continues. unfold turn. by rewrite Hcreate, Hstream, Hresp.
  - intros e evs Hexec.
    assert (Hresp : _handle_stream_response env content buf history
                    = (Raise e, history ++ [assistant_msg], evs)).
    { unfold _handle_stream_response.
      destruct (decide (buf = ∅)) as [?|_]; [done|].
      rewrite Hconv. unfold _handle_tool_calls. by rewrite Hexec. }
    split; [done|]. intros fuel s evs0 evs1 Hcreate Hstream.
    cbn [_run_interaction_loop]. unfold turn.
    by rewrite Hcreate, Hstream, Hresp.
Qed.

(** ** Raw arguments take precedence over an empty decoded list *)

(** When the raw arguments are an object whose [cities] is a string, the
    parsed [cities] is what the decoding chain made of that string. *)
Lemma parse_cities_of_text env arguments_str p d s :
  _parse_tool_arguments env arguments_str = Return p →
  ParsedToolArguments.raw_arguments p = PyDict d →
  dict_get "cities" d = Some (PyStr s) →
  decode_cities_text env (PyStr s) s = Return (ParsedToolArguments.cities p).
Proof.
  unfold _parse_tool_arguments. intros Hparse Hraw Hget.
  destruct (try_except (json_loads env arguments_str) _ _) as [args|e];
    [|done].
  cbn [obind] in Hparse.
  destruct (cities_is is_str args) as [[|]|e] eqn:Estr; [| |done];
    cbn [obind] in Hparse.
  - destruct (py_getitem_str args "cities") as [text|e] eqn:Etext; [|done].
    cbn [obind] in Hparse.
    destruct text;
      try (injection Hparse as <-; simpl in Hraw; subst args;
           simpl in Etext; rewrite Hget in Etext; done).
    destruct (decode_cities_text env (PyStr s0) s0) as [cities|e] eqn:Edec;
      [|done].
    injection Hparse as <-. simpl in Hraw. subst args.
    simpl in Etext. rewrite Hget in Etext. injection Etext as <-.
    by rewrite Edec.
  - exfalso.
    assert (args = PyDict d) as ->.
    { destruct (cities_is is_list args) as [[|]|e]; [| |done];
        cbn [obind] in Hparse.
      - destruct (py_getitem_str args "cities"); [|done].
        by injection Hparse as <-.
      - by injection Hparse as <-. }
    unfold cities_is in Estr. simpl in Estr. rewrite Hget in Estr.
    simpl in Estr. done.
Qed.

Lemma to_string_error env r a text :
  CityWeatherResult.error r = Some (String a text) →
  CityWeatherResult.to_string env r = Return (String a text).
Proof. unfold CityWeatherResult.to_string. by intros ->. Qed.

(** The text of a city's entry is never the "no cities" message. *)
Lemma entry_text_is_not_no_cities env city text :
  CityWeatherResult.to_string env (city_entry env city) = Return text →
  text ≠ "Error: No cities provided.".
Proof.
  unfold city_entry. rewrite get_weather_for_city_result.
  destruct (fst (get_coordinates env city)) as [[loc|]|e].
  - destruct (fst (get_current_weather env _ _)) as [w|e].
    + unfold CityWeatherResult.to_string. cbn.
      destruct (Location.str env loc) as [ls|e]; [|done]. cbn.
      intros [= <-] H. apply (f_equal (String.get 0)) in H.
      vm_compute in H. discriminate.
    + erewrite to_string_error by reflexivity.
      intros [= <-] H. apply (f_equal (String.get 5)) in H.
      vm_compute in H. discriminate.
  - erewrite to_string_error by reflexivity.
    intros [= <-] H. apply (f_equal (String.get 7)) in H.
    vm_compute in H. discriminate.
  - erewrite to_string_error by reflexivity.
    intros [= <-] H. apply (f_equal (String.get 5)) in H.
    vm_compute in H. discriminate.
Qed.

(** The weather tool on a list of cities that is not empty. *)
Lemma run_weather_tool_cities env call_id arguments c cs :
  _validate_and_normalize_cities arguments = Return (c :: cs) →
  _run_weather_tool env (WeatherToolParams.mk call_id arguments)
  = (match _format_weather_content env (city_entry env <$> c :: cs) with
     | Return content =>
         Return (WeatherToolResult.to_tool_response
                   (WeatherToolResult.mk call_id WEATHER_TOOL_NAME content))
     | Raise e => Raise e
     end,
     [EvGather (snd <$> (_get_weather_for_city env <$> c :: cs))]).
Proof.
  intros Hnorm. unfold _run_weather_tool.
  cbn [WeatherToolParams.arguments WeatherToolParams.call_id].
  rewrite Hnorm. unfold io_lift at 1. unfold io_bind at 1.
  rewrite fetch_weather_for_cities_entries. unfold io_bind, io_lift.
  by destruct (_format_weather_content env _).
Qed.

(** C10.  When the parser decoded the [cities] string of the raw arguments
    to an empty list, [to_dict] keeps the raw arguments, so [cities] is still
    the string; normalization wraps that string as one city name; and the
    weather tool runs one pipeline, which asks for the coordinates of that
    string, instead of answering that no cities were provided.  The two
    decoders are only assumed to reject the empty text. *)
Theorem raw_cities_string_is_looked_up env arguments_str p d s call_id :
  (∃ e, json_loads env EmptyString = Raise e
        ∧ caught_by e [JSONDecodeError; ValueError] = true) →
  (∃ e, literal_eval env EmptyString = Raise e
        ∧ caught_by e [ValueError; SyntaxError] = true) →
  _parse_tool_arguments env arguments_str = Return p →
  ParsedToolArguments.raw_arguments p = PyDict d →
  dict_get "cities" d = Some (PyStr s) →
  ParsedToolArguments.cities p = PyList [] →
  let params := WeatherToolParams.mk call_id (PyDict d) in
  ParsedToolArguments.to_dict p = Return (PyDict d)
  ∧ _validate_and_normalize_cities (PyDict d) = Return [PyStr s]
  ∧ (∃ rest,
       snd (_run_weather_tool env params)
       = [EvGather
            [EvPrint (("[Calling " +:+ WEATHER_TOOL_NAME +:+ " for "
                       +:+ s +:+ "...]") +:+ nl)
             :: EvGeocoding (PyStr s) :: rest]])
  ∧ fst (_run_weather_tool env params)
    ≠ Return (_create_error_response call_id "Error: No cities provided.").
Proof.
  intros (ej & Hj & Hjc) (el & Hl & Hlc) Hparse Hraw Hget Hcities params.
  pose proof (parse_cities_of_text env arguments_str p d s Hparse Hraw Hget)
    as Hdec.
  rewrite Hcities in Hdec.
  assert (Hs : str_truthy s = true).
  { destruct s as [|a s]; [|done]. exfalso.
    unfold decode_cities_text, try_except in Hdec.
    rewrite Hj, Hjc, Hl in Hdec. cbn [obind] in Hdec. by rewrite Hlc in Hdec. }
  assert (Hnorm : _validate_and_normalize_cities (PyDict d) = Return [PyStr s]).
  { unfold _validate_and_normalize_cities. cbn. rewrite Hget. cbn.
    by rewrite Hs. }
  split.
  { unfold ParsedToolArguments.to_dict. by rewrite Hraw, Hcities. }
  split; [done|].
  unfold params. rewrite (run_weather_tool_cities _ _ _ _ _ Hnorm).
  cbn [fst snd fmap list_fmap].
  destruct (get_weather_for_city_events env (PyStr s)) as [rest ->].
  split; [by exists rest|].
  unfold _format_weather_content. cbn [omapM].
  destruct (CityWeatherResult.to_string env (city_entry env (PyStr s)))
    as [text|e] eqn:Etext; [|done].
  cbn. intros [= H]. by apply (entry_text_is_not_no_cities _ _ _ Etext).
Qed.

(** * The theorems on the scenarios *)

(** The two example streams finalize to the same two invocations, slot 0
    first. *)
Example assemble_interleaved_stream :
  assemble interleaved_stream
  = [ToolInvocation.mk "call_1" (InvokedFunction.mk "get_weather" "{}");
     ToolInvocation.mk "call_2" (InvokedFunction.mk "get_weather" "[]")].
Proof. vm_compute. reflexivity. Qed.

Lemma assembler_finalizes_by_slot_witness :
  (∀ idx, slot_fragments idx (concat slot_by_slot_stream)
          = slot_fragments idx (concat interleaved_stream))
  ∧ assemble slot_by_slot_stream = assemble interleaved_stream.
Proof.
  assert (H : ∀ idx, slot_fragments idx (concat slot_by_slot_stream)
                     = slot_fragments idx (concat interleaved_stream)).
  { intros idx.
    unfold slot_fragments, slot_by_slot_stream, interleaved_stream.
    cbn [concat app]. rewrite !filter_cons, !filter_nil.
    unfold fragment_a1, fragment_a2, fragment_a3, fragment_b1, fragment_b2.
    cbn [ToolCallDelta.index].
    destruct (decide (0 = idx)), (decide (1 = idx)); try reflexivity.
    exfalso. lia. }
  split; [exact H|].
  exact (proj2 (assembler_finalizes_by_slot interleaved_stream
                  slot_by_slot_stream) H).
Defined.

Lemma fan_out_keeps_every_city_in_order_witness :
  let cities := [PyStr "Paris"; PyStr "Qwxyzland"; PyStr "Tokyo"] in
  let paris :=
    Location.mk (PyFloat (FDec 4885 (-2))) (PyFloat (FDec 235 (-2)))
      (PyStr "Paris") (PyStr "France") in
  ∃ w,
    fst (get_coordinates example_env (PyStr "Paris")) = Return (Some paris)
    ∧ fst (get_current_weather example_env (Location.latitude paris)
             (Location.longitude paris)) = Return w
    ∧ fst (get_coordinates example_env (PyStr "Qwxyzland")) = Return None
    ∧ fst (_fetch_weather_for_cities example_env cities)
      = Return (city_entry example_env <$> cities)
    ∧ city_entry example_env (PyStr "Paris")
      = CityWeatherResult.mk (PyStr "Paris") (Some paris) (Some w) None
    ∧ is_error_entry (city_entry example_env (PyStr "Qwxyzland")).
Proof.
  intros cities paris.
  destruct (fan_out_keeps_every_city_in_order example_env example_env cities)
    as (Hfetch & _ & _ & Hat).
  destruct (Hat 0%nat (PyStr "Paris") eq_refl) as (_ & _ & Hok & _).
  destruct (Hat 1%nat (PyStr "Qwxyzland") eq_refl)
    as (_ & _ & _ & Hnone & _).
  destruct (fst (get_current_weather example_env (Location.latitude paris)
                   (Location.longitude paris))) as [w|e] eqn:Hw;
    [|vm_compute in Hw; discriminate Hw].
  exists w.
  split; [reflexivity|]. split; [reflexivity|]. split; [reflexivity|].
  split; [by rewrite Hfetch|].
  split; [exact (proj1 (Hok paris w eq_refl Hw))|].
  exact (proj2 (Hnone eq_refl)).
Defined.

Lemma assistant_message_checked_by_to_dict_witness :
  let m := Message.mk MessageRole.ASSISTANT None None None None in
  let rejected :=
    Exn ValueError "Assistant message must have either content or tool_calls" in
  _handle_stream_response example_env EmptyString ∅ [] = (Return false, [m], [])
  ∧ Message.to_dict m = Raise rejected
  ∧ fst (_create_api_stream example_env [m]) = Raise rejected.
Proof.
  intros m rejected. split; [reflexivity|].
  assert (H : Message.to_dict m = Raise rejected).
  { apply (proj1 assistant_message_checked_by_to_dict m).
    repeat split; reflexivity. }
  split; [exact H|].
  unfold _create_api_stream. cbn [omapM]. by rewrite H.
Defined.

Lemma no_cities_gives_one_error_witness :
  let params := WeatherToolParams.mk "call_1" (PyDict [("cities", PyStr EmptyString)]) in
  _validate_and_normalize_cities (WeatherToolParams.arguments params)
  = Return []
  ∧ _run_weather_tool example_env params
    = (Return [("tool_call_id", "call_1"); ("role", "tool");
               ("name", "get_weather");
               ("content", "Error: No cities provided.")], []).
Proof.
  intros params. split; [reflexivity|].
  exact (proj2 (no_cities_gives_one_error example_env params) eq_refl).
Defined.

Lemma get_coordinates_none_on_failure_witness :
  let e := Exn TimeoutException "timed out" in
  geocoding_get example_env (PyStr "Atlantis") = Raise e
  ∧ exn_cls e = TimeoutException
  ∧ get_coordinates example_env (PyStr "Atlantis")
    = (Return None,
       [EvGeocoding (PyStr "Atlantis");
        EvPrint ((nl +:+ "[System Error] Geocoding API timeout: "
                  +:+ exn_msg e) +:+ nl)]).
Proof.
  intros e. split; [reflexivity|]. split; [reflexivity|].
  destruct (get_coordinates_none_on_not_found_and_on_failure example_env
              (PyStr "Atlantis")) as (_ & Htimeout & _).
  exact (Htimeout e eq_refl eq_refl).
Defined.

Lemma request_timeout_appends_nothing_witness :
  let history :=
    [Message.mk MessageRole.SYSTEM (Some "You are a helpful weather assistant.")
       None None None;
     Message.mk MessageRole.USER (Some "Hello") None None None] in
  let messages :=
    [[("role", PyStr "system");
      ("content", PyStr "You are a helpful weather assistant.")];
     [("role", PyStr "user"); ("content", PyStr "Hello")]] in
  let e := Exn APITimeoutError "Request timed out." in
  omapM Message.to_dict history = Return messages
  ∧ chat_create example_env messages = Raise e
  ∧ exn_cls e = APITimeoutError
  ∧ ∃ evs, _run_interaction_loop example_env 1 history = Some (history, evs).
Proof.
  intros history messages e.
  split; [reflexivity|]. split; [reflexivity|]. split; [reflexivity|].
  destruct (request_timeout_appends_nothing example_env 0 history messages e
              eq_refl eq_refl eq_refl) as (_ & Hloop & _).
  eexists. exact Hloop.
Defined.

Lemma only_first_tool_call_is_executed_witness :
  let call :=
    ToolInvocation.mk "call_1"
      (InvokedFunction.mk "get_weather" ("[" +:+ quoted "Paris" +:+ "]")) in
  let e := Exn AttributeError "'list' object has no attribute 'get'" in
  let failing : gmap Z ToolInvocation.t := {[0 := call; 1 := tokyo_call]} in
  let buf : gmap Z ToolInvocation.t := {[0 := paris_call; 1 := tokyo_call]} in
  (failing ≠ ∅
   ∧ _execute_tool_call example_env call = (Raise e, [])
   ∧ _handle_stream_response example_env EmptyString failing []
     = (Raise e,
        [Message.mk MessageRole.ASSISTANT None
           (Some [to_history_dict call; to_history_dict tokyo_call])
           None None],
        []))
  ∧ buf ≠ ∅
  ∧ ∃ text,
      _handle_stream_response example_env EmptyString buf []
      = (Return true,
         [Message.mk MessageRole.ASSISTANT None
            (Some [to_history_dict paris_call; to_history_dict tokyo_call])
            None None;
          Message.mk MessageRole.TOOL (Some text) None (Some "call_1")
            (Some "get_weather")],
         [EvGather
            (snd <$> (_get_weather_for_city example_env
                        <$> [PyStr "Paris"; PyStr "Qwxyzland"]))]).
Proof.
  intros call e failing buf.
  assert (Hnonempty : ∀ first : ToolInvocation.t,
            ({[0 := first; 1 := tokyo_call]} : gmap Z ToolInvocation.t) ≠ ∅).
  { intros first H.
    apply (f_equal (λ m : gmap Z ToolInvocation.t, m !! 0)) in H.
    vm_compute in H. discriminate. }
  split.
  - split; [apply Hnonempty|].
    assert (Hexec : _execute_tool_call example_env call = (Raise e, []))
      by reflexivity.
    split; [exact Hexec|].
    destruct (only_first_tool_call_is_executed example_env EmptyString failing
                [] (Hnonempty call)) as (first & rest & Hconv & _ & Hraise).
    assert (Hlist : _convert_tool_calls_buffer failing = [call; tokyo_call])
      by (vm_compute; reflexivity).
    rewrite Hlist in Hconv. injection Hconv as <- <-.
    exact (proj1 (Hraise e [] Hexec)).
  - split; [apply Hnonempty|].
    destruct (only_first_tool_call_is_executed example_env EmptyString buf []
                (Hnonempty paris_call)) as (first & rest & Hconv & Hret & _).
    assert (Hlist : _convert_tool_calls_buffer buf = [paris_call; tokyo_call])
      by (vm_compute; reflexivity).
    rewrite Hlist in Hconv. injection Hconv as <- <-.
    destruct (_execute_tool_call example_env paris_call) as [r evs] eqn:Eexec.
    assert (Hexec : ∃ d, (r, evs)
                         = (Return d,
                            [EvGather
                               (snd <$> (_get_weather_for_city example_env
                                           <$> [PyStr "Paris"; PyStr "Qwxyzland"]))])).
    { rewrite <- Eexec. eexists. vm_compute. reflexivity. }
    destruct Hexec as [d [= -> ->]].
    destruct (Hret d _ eq_refl) as (name & text & Hd & Hresp & _).
    assert (name = "get_weather") as ->.
    { vm_compute in Eexec. injection Eexec as <-. by injection Hd as <-. }
    exists text. exact Hresp.
Defined.

Lemma raw_cities_string_is_looked_up_witness :
  let arguments_str := cities_text_args "[]" in
  let d := [("cities", PyStr "[]")] in
  let p := ParsedToolArguments.mk (PyList []) (PyDict d) in
  _parse_tool_arguments example_env arguments_str = Return p
  ∧ ParsedToolArguments.to_dict p = Return (PyDict d)
  ∧ _validate_and_normalize_cities (PyDict d) = Return [PyStr "[]"]
  ∧ fst (_run_weather_tool example_env (WeatherToolParams.mk "call_1" (PyDict d)))
    ≠ Return (_create_error_response "call_1" "Error: No cities provided.").
Proof.
  intros arguments_str d p.
  assert (Hparse : _parse_tool_arguments example_env arguments_str = Return p)
    by reflexivity.
  split; [exact Hparse|].
  destruct (raw_cities_string_is_looked_up example_env arguments_str p d "[]"
              "call_1") as (Hdict & Hnorm & _ & Hrun).
  - eexists. split; reflexivity.
  - eexists. split; reflexivity.
  - exact Hparse.
  - reflexivity.
  - reflexivity.
  - reflexivity.
  - split; [exact Hdict|]. split; [exact Hnorm|]. exact Hrun.
Defined.

(** What the weather tool answers for that call: the lookup of the literal
    string. *)
Example raw_cities_string_lookup :
  _execute_tool_call example_env
    (ToolInvocation.mk "call_1"
       (InvokedFunction.mk "get_weather" (cities_text_args "[]")))
  = (Return [("tool_call_id", "call_1"); ("role", "tool");
             ("name", "get_weather");
             ("content", "Error: Could not find coordinates for city '[]'.")],
     [EvGather [[EvPrint ("[Calling get_weather for []...]" +:+ nl);
                 EvGeocoding (PyStr "[]")]]]).
Proof. vm_compute. reflexivity. Qed.

(** A tool call for an unknown function whose argument text is [null]: the
    parser raises [TypeError] and no tool result is returned. *)
Lemma execute_unknown_tool_raises_on_null :
  let tool_call :=
    ToolInvocation.mk "call_1" (InvokedFunction.mk "get_time" "null") in
  InvokedFunction.name (ToolInvocation.function tool_call) ≠ WEATHER_TOOL_NAME
  ∧ _execute_tool_call example_env tool_call
    = (Raise (Exn TypeError "argument of type 'NoneType' is not iterable"), []).
Proof.
  intros tool_call.
  assert (Hname : InvokedFunction.name (ToolInvocation.function tool_call)
                  ≠ WEATHER_TOOL_NAME) by discriminate.
  split; [exact Hname|].
  exact (execute_unknown_tool_follows_parser example_env tool_call Hname).
Defined.

(** * Further properties *)

(** ** Dicts *)

Lemma dict_get_set_eq k v d : dict_get k (dict_set k v d) = Some v.
Proof.
  induction d as [|[k' v'] d IH]; simpl.
  - by rewrite decide_True.
  - destruct (decide (k' = k)) as [->|Hne]; simpl.
    + by rewrite decide_True.
    + by rewrite decide_False.
Qed.

Lemma dict_get_set_ne k k' v d :
  k ≠ k' → dict_get k' (dict_set k v d) = dict_get k' d.
Proof.
  intros Hne. induction d as [|[k0 v0] d IH]; simpl.
  - by rewrite decide_False.
  - destruct (decide (k0 = k)) as [->|Hk]; simpl.
    + by rewrite !decide_False.
    + destruct (decide (k0 = k')); [done|]. apply IH.
Qed.

(** ** models.py: messages *)

(** [Message.to_dict] raises only on an assistant message; when it returns,
    the dict holds the role, and each of the four optional fields under its
    own key exactly when the field is not [None]. *)
Theorem message_to_dict_fields m :
  (Message.role m ≠ MessageRole.ASSISTANT → ∃ d, Message.to_dict m = Return d)
  ∧ ∀ d, Message.to_dict m = Return d →
      dict_get "role" d = Some (PyStr (Message.role m))
      ∧ dict_get "content" d = PyStr <$> Message.content m
      ∧ dict_get "tool_calls" d = PyList <$> Message.tool_calls m
      ∧ dict_get "tool_call_id" d = PyStr <$> Message.tool_call_id m
      ∧ dict_get "name" d = PyStr <$> Message.name m.
Proof.
  unfold Message.to_dict. split.
  - intros Hrole. rewrite bool_decide_eq_false_2 by done. by eexists.
  - intros d.
    destruct (bool_decide _ && _ && _); [done|]. intros [= <-].
    destruct m as [role [c|] [t|] [i|] [n|]]; repeat split; reflexivity.
Qed.

Lemma message_to_dict_fields_witness :
  let m := Message.mk MessageRole.TOOL (Some "Sunny") None (Some "call_1")
             (Some "get_weather") in
  Message.role m ≠ MessageRole.ASSISTANT
  ∧ Message.to_dict m
    = Return [("role", PyStr "tool"); ("content", PyStr "Sunny");
              ("tool_call_id", PyStr "call_1"); ("name", PyStr "get_weather")]
  ∧ dict_get "tool_calls"
      [("role", PyStr "tool"); ("content", PyStr "Sunny");
       ("tool_call_id", PyStr "call_1"); ("name", PyStr "get_weather")]
    = None.
Proof.
  intros m.
  assert (Hrole : Message.role m ≠ MessageRole.ASSISTANT) by discriminate.
  destruct (message_to_dict_fields m) as [Htotal Hfields].
  destruct (Htotal Hrole) as [d Hd].
  destruct (Hfields d Hd) as (_ & _ & Htc & _).
  split; [exact Hrole|]. split; [reflexivity|].
  assert (d = [("role", PyStr "tool"); ("content", PyStr "Sunny");
               ("tool_call_id", PyStr "call_1"); ("name", PyStr "get_weather")])
    as <- by (vm_compute in Hd; by injection Hd).
  exact Htc.
Defined.

(** ** assistant.py: draining the stream *)

Lemma str_append_empty_l (s : string) : EmptyString +:+ s = s.
Proof. reflexivity. Qed.

Lemma drain_collects deltas c (b : gmap Z ToolInvocation.t) :
  drain deltas c b
  = (c +:+ str_concat (piece_text ∘ Delta.content <$> deltas),
     fold_left (λ buf d, _accumulate_tool_call_chunk d buf)
       (delta_fragments <$> deltas) b,
     EvPrint <$> text_chunks deltas).
Proof.
  revert c b. induction deltas as [|[content tcs] deltas IH]; intros c b.
  - cbn. by rewrite str_append_empty_r.
  - cbn [drain Delta.content Delta.tool_calls].
    assert (Hb : match tcs with
                 | Some (tc :: tcs') =>
                     _accumulate_tool_call_chunk (tc :: tcs') b
                 | _ => b
                 end
                 = _accumulate_tool_call_chunk
                     (delta_fragments (Delta.mk content tcs)) b)
      by (by destruct tcs as [[|]|]).
    rewrite Hb. clear Hb.
    unfold text_chunks. cbn [fmap list_fmap fold_left]. rewrite filter_cons.
    destruct content as [[|a s]|]; cbn; rewrite IH; unfold text_chunks; cbn;
      rewrite ?str_append_assoc; reflexivity.
Qed.

Lemma process_stream_result s :
  let written :=
    EvPrint CLI_ASSISTANT_PROMPT :: (EvPrint <$> text_chunks (stream_deltas s)) in
  (stream_error s = None →
   _process_stream s
   = (Return (str_concat (piece_text ∘ Delta.content <$> stream_deltas s),
              assemble_buffer (delta_fragments <$> stream_deltas s)),
      written ++ [EvPrint nl]))
  ∧ (∀ e, stream_error s = Some e → _process_stream s = (Raise e, written)).
Proof.
  intros written. unfold _process_stream, write. rewrite io_bind_emit.
  rewrite drain_collects. split.
  - intros ->. reflexivity.
  - intros e ->. reflexivity.
Qed.

(** [_process_stream] returns the concatenation of the text fragments and
    the buffer assembled from all tool-call fragments of the stream, having
    written the prompt, every non-empty text fragment as it came, and a line
    feed.  When iterating the stream raises, [_process_stream] raises the
    same exception after the prompt and the text it had written. *)
Theorem process_stream_collects s :
  let written :=
    EvPrint CLI_ASSISTANT_PROMPT :: (EvPrint <$> text_chunks (stream_deltas s)) in
  (stream_error s = None →
   _process_stream s
   = (Return (str_concat (piece_text ∘ Delta.content <$> stream_deltas s),
              assemble_buffer (delta_fragments <$> stream_deltas s)),
      written ++ [EvPrint nl]))
  ∧ (∀ e, stream_error s = Some e → _process_stream s = (Raise e, written)).
Proof. exact (process_stream_result s). Qed.

Lemma process_stream_collects_witness :
  let s := Stream [Delta.mk (Some "Hel") None; Delta.mk (Some "lo!") (Some [])]
             None in
  stream_error s = None
  ∧ _process_stream s
    = (Return ("Hello!", ∅),
       [EvPrint "Assistant: "; EvPrint "Hel"; EvPrint "lo!"; EvPrint nl]).
Proof.
  intros s. split; [reflexivity|].
  exact (proj1 (process_stream_collects s) eq_refl).
Defined.

(** ** assistant.py: the loop *)

Lemma no_fragments_empty_buffer (frs : list (list ToolCallDelta.t)) :
  (∀ l, l ∈ frs → l = []) → assemble_buffer frs = ∅.
Proof.
  unfold assemble_buffer. generalize (∅ : gmap Z ToolInvocation.t).
  induction frs as [|l frs IH]; intros b Hall; [done|].
  cbn. rewrite (Hall l) by left. cbn. apply IH.
  intros l' Hl'. apply Hall. by right.
Qed.

(** A stream without tool-call fragment that ends normally ends the loop in
    that turn: exactly one assistant message, carrying the collected text (or
    no content when there was none), is appended. *)
Theorem text_answer_ends_the_loop env fuel history s evs0 :
  _create_api_stream env history = (Return (Some s), evs0) →
  stream_error s = None →
  (∀ delta, delta ∈ stream_deltas s → delta_fragments delta = []) →
  _run_interaction_loop env (S fuel) history
  = Some (history
          ++ [Message.mk MessageRole.ASSISTANT
                (content_or_none
                   (str_concat (piece_text ∘ Delta.content <$> stream_deltas s)))
                None None None],
          evs0 ++ (EvPrint CLI_ASSISTANT_PROMPT
                   :: (EvPrint <$> text_chunks (stream_deltas s)))
                  ++ [EvPrint nl]).
Proof.
  intros Hcreate Herr Hnone. cbn [_run_interaction_loop]. unfold turn.
  rewrite Hcreate, (proj1 (process_stream_result s) Herr).
  rewrite no_fragments_empty_buffer.
  - unfold _handle_stream_response. rewrite decide_True by done.
    by rewrite !app_nil_r.
  - intros l Hl. apply list_elem_of_fmap in Hl as (delta & -> & Hin).
    by apply Hnone.
Qed.

Lemma text_answer_ends_the_loop_witness :
  let env := reference_env example_geocoding example_forecast greeting_chat in
  let user := Message.mk MessageRole.USER (Some "Hello") None None None in
  let s := Stream [Delta.mk (Some "Hel") None; Delta.mk (Some "lo!") (Some [])]
             None in
  let request := EvChat [[("role", PyStr "user"); ("content", PyStr "Hello")]] in
  _create_api_stream env [user] = (Return (Some s), [request])
  ∧ stream_error s = None
  ∧ _run_interaction_loop env 1 [user]
    = Some ([user; Message.mk MessageRole.ASSISTANT (Some "Hello!") None None None],
            [request; EvPrint "Assistant: "; EvPrint "Hel"; EvPrint "lo!";
             EvPrint nl]).
Proof.
  intros env user s request.
  split; [reflexivity|]. split; [reflexivity|].
  refine (text_answer_ends_the_loop env 0 [user] s [request] eq_refl eq_refl _).
  intros delta Hin. cbn in Hin.
  apply elem_of_cons in Hin as [->|Hin]; [reflexivity|].
  apply elem_of_cons in Hin as [->|Hin]; [reflexivity|].
  by apply not_elem_of_nil in Hin.
Defined.

(** A turn that fails before the response is handled leaves the transcript
    as it was and ends the loop with one diagnostic line: when building or
    sending the request raises anything but a request timeout, and when
    iterating the stream raises. *)
Theorem failed_turn_leaves_transcript env fuel history e :
  let report := EvPrint (CLI_UNEXPECTED_ERROR (exn_msg e) +:+ nl) in
  (∀ evs, _create_api_stream env history = (Raise e, evs) →
          _run_interaction_loop env (S fuel) history
          = Some (history, evs ++ [report]))
  ∧ (∀ s evs0,
       _create_api_stream env history = (Return (Some s), evs0) →
       stream_error s = Some e →
       _run_interaction_loop env (S fuel) history
       = Some (history,
               (evs0 ++ EvPrint CLI_ASSISTANT_PROMPT
                        :: (EvPrint <$> text_chunks (stream_deltas s)))
               ++ [report])).
Proof.
  intros report. split.
  - intros evs Hcreate. cbn [_run_interaction_loop]. unfold turn.
    by rewrite Hcreate.
  - intros s evs0 Hcreate Herr. cbn [_run_interaction_loop]. unfold turn.
    by rewrite Hcreate, (proj2 (process_stream_result s) e Herr).
Qed.

Lemma failed_turn_leaves_transcript_witness :
  let env := reference_env example_geocoding example_forecast broken_stream_chat in
  let user := Message.mk MessageRole.USER (Some "Hello") None None None in
  _run_interaction_loop env 1 [user]
  = Some ([user],
          [EvChat [[("role", PyStr "user"); ("content", PyStr "Hello")]];
           EvPrint "Assistant: "; EvPrint "Hel";
           EvPrint ("Unexpected error: Connection reset" +:+ nl)]).
Proof.
  intros env user.
  pose (e := Exn OtherException "Connection reset").
  pose (s := Stream [Delta.mk (Some "Hel") None] (Some e)).
  exact (proj2 (failed_turn_leaves_transcript env 0 [user] e) s
           [EvChat [[("role", PyStr "user"); ("content", PyStr "Hello")]]]
           eq_refl eq_refl).
Defined.

Lemma handle_stream_response_extends env content
    (buf : gmap Z ToolInvocation.t) history r h evs :
  _handle_stream_response env content buf history = (r, h, evs) →
  ∃ added, h = history ++ added ∧ (1 ≤ length added ≤ 2)%nat.
Proof.
  unfold _handle_stream_response.
  destruct (decide (buf = ∅)) as [_|_].
  - intros [= <- <- <-]. eexists [_]. split; [done|]. simpl. lia.
  - destruct (_convert_tool_calls_buffer buf) as [|first rest];
      unfold _handle_tool_calls.
    + intros [= <- <- <-]. eexists [_]. split; [done|]. simpl. lia.
    + destruct (_execute_tool_call env first) as [[d|e] evs'].
      * destruct (sdict_get "role" d).
        -- intros [= <- <- <-]. eexists [_; _].
           split; [by rewrite <- app_assoc|]. simpl. lia.
        -- intros [= <- <- <-]. eexists [_]. split; [done|]. simpl. lia.
      * intros [= <- <- <-]. eexists [_]. split; [done|]. simpl. lia.
Qed.

Lemma turn_extends env history r h evs :
  turn env history = (r, h, evs) →
  ∃ added, h = history ++ added ∧ (length added ≤ 2)%nat.
Proof.
  unfold turn.
  destruct (_create_api_stream env history) as [[[s|]|e] evs0].
  - destruct (_process_stream s) as [[[content buf]|e] evs1].
    + destruct (_handle_stream_response env content buf history)
        as [[r' h'] evs2] eqn:Eh.
      intros [= <- <- <-].
      destruct (handle_stream_response_extends _ _ _ _ _ _ _ Eh)
        as (added & -> & Hlen).
      exists added. split; [done|lia].
    + intros [= <- <- <-]. exists []. rewrite app_nil_r. split; [done|simpl; lia].
  - intros [= <- <- <-]. exists []. rewrite app_nil_r. split; [done|simpl; lia].
  - intros [= <- <- <-]. exists []. rewrite app_nil_r. split; [done|simpl; lia].
Qed.

(** The transcript is append-only: when the loop ends, the transcript is the
    one it started from followed by at most two messages per turn; no
    message is removed, replaced or reordered. *)
Theorem transcript_only_grows env fuel history h evs :
  _run_interaction_loop env fuel history = Some (h, evs) →
  ∃ added, h = history ++ added ∧ (length added ≤ 2 * fuel)%nat.
Proof.
  revert history h evs. induction fuel as [|fuel IH]; intros history h evs;
    [done|].
  cbn [_run_interaction_loop].
  destruct (turn env history) as [[r h1] evs1] eqn:Eturn.
  destruct (turn_extends _ _ _ _ _ Eturn) as (added1 & -> & Hlen1).
  destruct r as [[|]|e].
  - destruct (_run_interaction_loop env fuel (history ++ added1))
      as [[h2 evs2]|] eqn:Eloop; [|done].
    intros [= <- <-].
    destruct (IH _ _ _ Eloop) as (added2 & -> & Hlen2).
    exists (added1 ++ added2). split; [by rewrite app_assoc|].
    rewrite length_app. lia.
  - intros [= <- <-]. exists added1. split; [done|lia].
  - intros [= <- <-]. exists added1. split; [done|lia].
Qed.

Lemma transcript_only_grows_witness :
  let env := reference_env example_geocoding example_forecast greeting_chat in
  let user := Message.mk MessageRole.USER (Some "Hello") None None None in
  let h := [user; Message.mk MessageRole.ASSISTANT (Some "Hello!") None None None] in
  (∃ evs, _run_interaction_loop env 3 [user] = Some (h, evs))
  ∧ ∃ added, h = [user] ++ added ∧ (length added ≤ 2 * 3)%nat.
Proof.
  intros env user h.
  assert (Hrun : ∃ evs, _run_interaction_loop env 3 [user] = Some (h, evs)).
  { exists [EvChat [[("role", PyStr "user"); ("content", PyStr "Hello")]];
            EvPrint "Assistant: "; EvPrint "Hel"; EvPrint "lo!"; EvPrint nl].
    reflexivity. }
  split; [exact Hrun|]. destruct Hrun as [evs Hrun].
  exact (transcript_only_grows env 3 [user] h evs Hrun).
Defined.

Lemma omapM_raises {A B} (f : A → outcome B) (l : list A) x e0 :
  x ∈ l → f x = Raise e0 → (∀ y e, f y = Raise e → e = e0) →
  omapM f l = Raise e0.
Proof.
  intros Hin Hx Hsame. induction l as [|y l IH]; [by apply not_elem_of_nil in Hin|].
  cbn. destruct (f y) as [b|e] eqn:Ey; cbn.
  - apply elem_of_cons in Hin as [->|Hin]; [congruence|].
    by rewrite (IH Hin).
  - by rewrite (Hsame y e Ey).
Qed.

(** Once the transcript holds an assistant message with neither content nor
    tool call, every later turn fails while the request is built: no request
    reaches the chat API, nothing further is appended after the user
    message, and the user gets the same diagnostic each time. *)
Theorem empty_assistant_message_blocks_every_request env fuel history m :
  m ∈ history →
  Message.role m = MessageRole.ASSISTANT →
  Message.has_content m = false →
  Message.has_tool_calls m = false →
  let report :=
    EvPrint (CLI_UNEXPECTED_ERROR
               "Assistant message must have either content or tool_calls"
             +:+ nl) in
  _run_interaction_loop env (S fuel) history = Some (history, [report])
  ∧ ∀ user_input,
      process_message env (S fuel) user_input history
      = Some (history
              ++ [Message.mk MessageRole.USER (Some user_input) None None None],
              [report]).
Proof.
  intros Hin Hrole Hc Ht report.
  assert (Hloop : ∀ h, m ∈ h →
            _run_interaction_loop env (S fuel) h = Some (h, [report])).
  { intros h Hh. cbn [_run_interaction_loop]. unfold turn, _create_api_stream.
    rewrite (omapM_raises Message.to_dict h m
               (Exn ValueError
                  "Assistant message must have either content or tool_calls")).
    - reflexivity.
    - done.
    - unfold Message.to_dict. by rewrite Hrole, Hc, Ht.
    - intros y e. unfold Message.to_dict.
      destruct (_ && _ && _); [by intros [= <-]|done]. }
  split; [by apply Hloop|].
  intros user_input. unfold process_message. apply Hloop.
  apply elem_of_app. by left.
Qed.

Lemma empty_assistant_message_blocks_every_request_witness :
  let m := Message.mk MessageRole.ASSISTANT None None None None in
  let env := reference_env example_geocoding example_forecast greeting_chat in
  m ∈ [m]
  ∧ process_message env 1 "Hello again" [m]
    = Some ([m; Message.mk MessageRole.USER (Some "Hello again") None None None],
            [EvPrint ("Unexpected error: Assistant message must have either "
                      +:+ "content or tool_calls" +:+ nl)]).
Proof.
  intros m env.
  assert (Hin : m ∈ [m]) by left.
  split; [exact Hin|].
  exact (proj2 (empty_assistant_message_blocks_every_request env 0 [m] m Hin
                  eq_refl eq_refl eq_refl) "Hello again").
Defined.

(** ** weather_service.py *)

(** [get_coordinates] uses the first result only: when the response holds a
    non-empty list of results whose first element is an object with
    [latitude], [longitude] and [name], it returns the location made of
    these, with the country of that element or the empty string when it has
    none, and makes the one request. *)
Theorem get_coordinates_takes_first_result env city d r others
    latitude longitude name :
  geocoding_get env city = Return (PyDict d) →
  dict_get "results" d = Some (PyList (PyDict r :: others)) →
  dict_get "latitude" r = Some latitude →
  dict_get "longitude" r = Some longitude →
  dict_get "name" r = Some name →
  get_coordinates env city
  = (Return (Some (Location.mk latitude longitude name
                     (default (PyStr EmptyString) (dict_get "country" r)))),
     [EvGeocoding city]).
Proof.
  intros Hgeo Hres Hlat Hlon Hname. unfold get_coordinates. rewrite Hgeo.
  cbn. rewrite Hres. cbn. by rewrite Hlat, Hlon, Hname.
Qed.

Lemma get_coordinates_takes_first_result_witness :
  get_coordinates example_env (PyStr "Paris")
  = (Return (Some (Location.mk (PyFloat (FDec 4885 (-2)))
                     (PyFloat (FDec 235 (-2))) (PyStr "Paris")
                     (PyStr "France"))),
     [EvGeocoding (PyStr "Paris")]).
Proof.
  exact (get_coordinates_takes_first_result example_env (PyStr "Paris")
           _ _ [] _ _ _ eq_refl eq_refl eq_refl eq_refl eq_refl).
Defined.

(** A first result without [latitude] is not caught by [get_coordinates]:
    the [KeyError] leaves it, and the fan-out turns it into the error entry
    of that city. *)
Theorem get_coordinates_missing_latitude env city d r others :
  geocoding_get env city = Return (PyDict d) →
  dict_get "results" d = Some (PyList (PyDict r :: others)) →
  dict_get "latitude" r = None →
  get_coordinates env city
  = (Raise (Exn KeyError "'latitude'"), [EvGeocoding city])
  ∧ city_entry env city
    = CityWeatherResult.mk city None None
        (Some ("Error processing city '" +:+ fmt env city
               +:+ "': 'latitude'")).
Proof.
  intros Hgeo Hres Hlat.
  assert (Hgc : get_coordinates env city
                = (Raise (Exn KeyError "'latitude'"), [EvGeocoding city])).
  { unfold get_coordinates. rewrite Hgeo. cbn. rewrite Hres. cbn.
    by rewrite Hlat. }
  split; [done|].
  destruct (city_entry_cases env city) as (_ & _ & Hraise & _).
  rewrite (Hraise (Exn KeyError "'latitude'")); [done|]. by rewrite Hgc.
Qed.

Lemma get_coordinates_missing_latitude_witness :
  let env := reference_env incomplete_geocoding example_forecast timeout_chat in
  CityWeatherResult.error (city_entry env (PyStr "Paris"))
  = Some "Error processing city 'Paris': 'latitude'".
Proof.
  intros env.
  destruct (get_coordinates_missing_latitude env (PyStr "Paris")
              _ _ [] eq_refl eq_refl eq_refl) as [_ Hentry].
  rewrite Hentry. reflexivity.
Defined.

(** [get_current_weather] lets no httpx exception out: a timeout and any
    other HTTP error of the request are raised again as [ValueError], with a
    text that says which of the two it was and carries the original
    message; the request was made once. *)
Theorem get_current_weather_converts_http_errors env latitude longitude e :
  forecast_get env latitude longitude = Raise e →
  (exn_cls e = TimeoutException →
   get_current_weather env latitude longitude
   = (Raise (Exn ValueError
               ("Timeout while fetching weather data: " +:+ exn_msg e)),
      [EvForecast latitude longitude]))
  ∧ (exn_cls e = HTTPError →
     get_current_weather env latitude longitude
     = (Raise (Exn ValueError
                 ("Error fetching weather data: " +:+ exn_msg e)),
        [EvForecast latitude longitude]))
  ∧ (caught_by e [TimeoutException; HTTPError] = false →
     get_current_weather env latitude longitude
     = (Raise e, [EvForecast latitude longitude])).
Proof.
  intros Hwx. unfold get_current_weather. rewrite Hwx.
  destruct e as [c m]. cbn [exn_cls exn_msg]. repeat split.
  - intros ->. reflexivity.
  - intros ->. reflexivity.
  - intros Hc. unfold io_try2. cbn [io_bind emit io_lift].
    assert (caught_by (Exn c m) [TimeoutException] = false) as ->
      by (by destruct c).
    assert (caught_by (Exn c m) [HTTPError] = false) as ->
      by (by destruct c).
    reflexivity.
Qed.

Lemma get_current_weather_converts_http_errors_witness :
  let latitude := PyFloat (FDec 3569 (-2)) in
  let longitude := PyFloat (FDec 13969 (-2)) in
  let e := Exn HTTPError "Server error '502 Bad Gateway'" in
  forecast_get example_env latitude longitude = Raise e
  ∧ get_current_weather example_env latitude longitude
    = (Raise (Exn ValueError
                ("Error fetching weather data: "
                 +:+ "Server error '502 Bad Gateway'")),
       [EvForecast latitude longitude]).
Proof.
  intros latitude longitude e.
  assert (H : forecast_get example_env latitude longitude = Raise e)
    by reflexivity.
  split; [exact H|].
  destruct (get_current_weather_converts_http_errors example_env latitude
              longitude e H) as (_ & Hhttp & _).
  exact (Hhttp eq_refl).
Defined.

(** A missing field never makes [get_current_weather] fail: when the
    response is an object whose [current] and [current_units] are objects or
    absent, every measure that is absent is taken as 0.0, an absent weather
    code as [None], and every absent unit as its default. *)
Theorem get_current_weather_defaults env latitude longitude d current units :
  forecast_get env latitude longitude = Return (PyDict d) →
  default (PyDict []) (dict_get "current" d) = PyDict current →
  default (PyDict []) (dict_get "current_units" d) = PyDict units →
  let measure key :=
    default (PyFloat (FDec 0 (-1))) (dict_get key current) in
  let unit key dflt := default (PyStr dflt) (dict_get key units) in
  get_current_weather env latitude longitude
  = (Return (WeatherData.mk
               (measure "temperature_2m") (measure "apparent_temperature")
               (measure "relative_humidity_2m") (measure "wind_speed_10m")
               (measure "precipitation")
               (default PyNone (dict_get "weather_code" current))
               (unit "temperature_2m" "Â°C")
               (unit "relative_humidity_2m" "%")
               (unit "wind_speed_10m" "km/h")
               (unit "precipitation" "mm")),
     [EvForecast latitude longitude]).
Proof.
  intros Hwx Hcur Hunits measure unit. unfold get_current_weather.
  rewrite Hwx. cbn. by rewrite Hcur, Hunits.
Qed.

Lemma get_current_weather_defaults_witness :
  let env :=
    reference_env example_geocoding (λ _ _, Return (PyDict [])) timeout_chat in
  let zero := PyFloat (FDec 0 (-1)) in
  get_current_weather env (PyInt 1) (PyInt 2)
  = (Return (WeatherData.mk zero zero zero zero zero PyNone
               (PyStr "Â°C") (PyStr "%") (PyStr "km/h") (PyStr "mm")),
     [EvForecast (PyInt 1) (PyInt 2)]).
Proof.
  intros env zero.
  exact (get_current_weather_defaults env (PyInt 1) (PyInt 2) [] [] []
           eq_refl eq_refl eq_refl).
Defined.

(** ** assistant.py: one city *)

(** After the line that announces the city, the pipeline of a city raises
    only what the resolution of its name raised: once [get_coordinates] has
    returned, whatever the weather fetch does, the two steps return an
    entry. *)
Theorem pipeline_raises_only_what_resolution_raises env city e :
  fst (geocode_and_fetch env city) = Raise e
  ↔ fst (get_coordinates env city) = Raise e.
Proof.
  rewrite geocode_and_fetch_result.
  destruct (fst (get_coordinates env city)) as [[loc|]|e'];
    [destruct (fst (get_current_weather env _ _))|..];
    split; intros H; try discriminate H; by injection H as ->.
Qed.

(** ** assistant.py: the tool result *)

(** Whatever [_execute_tool_call] returns is a dict with the four keys of a
    tool response: it carries the id of the call it answers and the role
    [tool]. *)
Theorem tool_result_carries_call_id env tool_call d evs :
  _execute_tool_call env tool_call = (Return d, evs) →
  sdict_get "tool_call_id" d = Some (ToolInvocation.id tool_call)
  ∧ sdict_get "role" d = Some MessageRole.TOOL
  ∧ is_Some (sdict_get "name" d)
  ∧ is_Some (sdict_get "content" d)
  ∧ length d = 4%nat.
Proof.
  intros H.
  destruct (execute_tool_call_response env tool_call d evs H)
    as (name & content & ->).
  repeat split; try reflexivity; by eexists.
Qed.

Lemma tool_result_carries_call_id_witness :
  let tool_call :=
    ToolInvocation.mk "call_7" (InvokedFunction.mk "get_time" "{}") in
  let d := [("tool_call_id", "call_7"); ("role", "tool"); ("name", "get_time");
            ("content", "Error: Unknown function requested.")] in
  _execute_tool_call example_env tool_call = (Return d, [])
  ∧ sdict_get "tool_call_id" d = Some "call_7".
Proof.
  intros tool_call d.
  assert (H : _execute_tool_call example_env tool_call = (Return d, []))
    by reflexivity.
  split; [exact H|].
  exact (proj1 (tool_result_carries_call_id example_env tool_call d [] H)).
Defined.

(** A single city that cannot be resolved: the content of the tool result
    is exactly the error line that names it. *)
Theorem unresolved_city_content env call_id arguments c :
  _validate_and_normalize_cities arguments = Return [c] →
  fst (get_coordinates env c) = Return None →
  fst (_run_weather_tool env (WeatherToolParams.mk call_id arguments))
  = Return [("tool_call_id", call_id); ("role", "tool");
            ("name", "get_weather");
            ("content", "Error: Could not find coordinates for city '"
                        +:+ fmt env c +:+ "'.")].
Proof.
  intros Hnorm Hnone. rewrite (run_weather_tool_cities _ _ _ _ _ Hnorm).
  cbn [fst fmap list_fmap]. unfold _format_weather_content. cbn [omapM].
  destruct (city_entry_cases env c) as (_ & Hentry & _).
  rewrite (Hentry Hnone). erewrite to_string_error by reflexivity.
  reflexivity.
Qed.

Lemma unresolved_city_content_witness :
  let arguments := PyDict [("cities", PyList [PyStr "Qwxyzland"])] in
  _validate_and_normalize_cities arguments = Return [PyStr "Qwxyzland"]
  ∧ fst (get_coordinates example_env (PyStr "Qwxyzland")) = Return None
  ∧ fst (_run_weather_tool example_env
           (WeatherToolParams.mk "call_1" arguments))
    = Return [("tool_call_id", "call_1"); ("role", "tool");
              ("name", "get_weather");
              ("content",
               "Error: Could not find coordinates for city 'Qwxyzland'.")].
Proof.
  intros arguments. split; [reflexivity|]. split; [reflexivity|].
  exact (unresolved_city_content example_env "call_1" arguments
           (PyStr "Qwxyzland") eq_refl eq_refl).
Defined.

(** ** assistant.py and models.py: from the argument text to the cities *)

(** The raw arguments of a parse result are the decoded text, or the empty
    dict when the text does not decode. *)
Lemma parse_raw_arguments env arguments_str p :
  _parse_tool_arguments env arguments_str = Return p →
  try_except (json_loads env arguments_str)
    [JSONDecodeError; AttributeError] (λ _, Return (PyDict []))
  = Return (ParsedToolArguments.raw_arguments p).
Proof.
  unfold _parse_tool_arguments.
  destruct (try_except _ _ _) as [args|e]; [|done]. cbn [obind].
  destruct (cities_is is_str args) as [[|]|e]; [| |done]; cbn [obind].
  - destruct (py_getitem_str args "cities") as [t|e]; [|done]. cbn [obind].
    destruct t; try (by intros [= <-]).
    destruct (decode_cities_text env _ _); [|done]. by intros [= <-].
  - destruct (cities_is is_list args) as [[|]|e]; [| |done]; cbn [obind].
    + destruct (py_getitem_str args "cities"); [|done]. by intros [= <-].
    + by intros [= <-].
Qed.

(** The parser on a text that decodes to an object. *)
Lemma parse_on_object env arguments_str d :
  try_except (json_loads env arguments_str)
    [JSONDecodeError; AttributeError] (λ _, Return (PyDict []))
  = Return (PyDict d) →
  _parse_tool_arguments env arguments_str
  = match dict_get "cities" d with
    | Some (PyStr s) =>
        try! cities := decode_cities_text env (PyStr s) s in
        Return (ParsedToolArguments.mk cities (PyDict d))
    | Some (PyList l) => Return (ParsedToolArguments.mk (PyList l) (PyDict d))
    | _ => Return (ParsedToolArguments.mk (PyList []) (PyDict d))
    end.
Proof.
  intros Hargs. unfold _parse_tool_arguments. rewrite Hargs.
  cbn [obind]. unfold cities_is. cbn [py_contains_str py_getitem_str obind].
  destruct (dict_get "cities" d) as [c|]; [|reflexivity].
  destruct c; reflexivity.
Qed.

(** The normal path: when the argument text decodes to an object whose
    [cities] is a list, the parser keeps that list, and what the executor
    normalizes from [to_dict] is that same list, element for element, empty
    or not. *)
Theorem decoded_city_list_reaches_executor env arguments_str d l :
  json_loads env arguments_str = Return (PyDict d) →
  dict_get "cities" d = Some (PyList l) →
  ∃ arguments,
    _parse_tool_arguments env arguments_str
    = Return (ParsedToolArguments.mk (PyList l) (PyDict d))
    ∧ ParsedToolArguments.to_dict
        (ParsedToolArguments.mk (PyList l) (PyDict d)) = Return arguments
    ∧ _validate_and_normalize_cities arguments = Return l.
Proof.
  intros Hjson Hget.
  assert (Hparse : _parse_tool_arguments env arguments_str
                   = Return (ParsedToolArguments.mk (PyList l) (PyDict d))).
  { rewrite (parse_on_object env arguments_str d), Hget; [done|].
    unfold try_except. by rewrite Hjson. }
  unfold ParsedToolArguments.to_dict. cbn.
  destruct l as [|c l].
  - exists (PyDict d). repeat split; [done|].
    unfold _validate_and_normalize_cities. cbn. by rewrite Hget.
  - exists (PyDict (dict_set "cities" (PyList (c :: l)) d)).
    repeat split; [done|].
    unfold _validate_and_normalize_cities. cbn.
    by rewrite dict_get_set_eq.
Qed.

Lemma decoded_city_list_reaches_executor_witness :
  let text := "{" +:+ quoted "cities" +:+ ": [" +:+ quoted "Paris" +:+ ", "
              +:+ quoted "Tokyo" +:+ "]}" in
  let l := [PyStr "Paris"; PyStr "Tokyo"] in
  json_loads example_env text = Return (PyDict [("cities", PyList l)])
  ∧ ∃ arguments,
      ParsedToolArguments.to_dict
        (ParsedToolArguments.mk (PyList l) (PyDict [("cities", PyList l)]))
      = Return arguments
      ∧ _validate_and_normalize_cities arguments = Return l.
Proof.
  intros text l. split; [reflexivity|].
  destruct (decoded_city_list_reaches_executor example_env text
              [("cities", PyList l)] l eq_refl eq_refl)
    as (arguments & _ & Hdict & Hnorm).
  by exists arguments.
Defined.

(** For what the parser returns with an object as raw arguments,
    [get_cities] is the [cities] field: the raw list and the parsed field
    never disagree. *)
Theorem get_cities_agrees_with_parser env arguments_str p d :
  _parse_tool_arguments env arguments_str = Return p →
  ParsedToolArguments.raw_arguments p = PyDict d →
  ParsedToolArguments.get_cities p = Return (ParsedToolArguments.cities p).
Proof.
  intros Hparse Hraw.
  pose proof (parse_raw_arguments env arguments_str p Hparse) as Hargs.
  rewrite Hraw in Hargs.
  rewrite (parse_on_object env arguments_str d Hargs) in Hparse.
  unfold ParsedToolArguments.get_cities. rewrite Hraw. cbn.
  destruct (dict_get "cities" d) as [c|] eqn:Hget; cbn.
  - destruct c; try (by injection Hparse as <-).
    destruct (decode_cities_text env _ _); [|done].
    by injection Hparse as <-.
  - by injection Hparse as <-.
Qed.

Lemma get_cities_agrees_with_parser_witness :
  let p := ParsedToolArguments.mk (PyList [PyStr "London"])
             (PyDict [("cities", PyStr "['London']")]) in
  _parse_tool_arguments example_env (cities_text_args "['London']") = Return p
  ∧ ParsedToolArguments.get_cities p = Return (PyList [PyStr "London"]).
Proof.
  intros p.
  assert (H : _parse_tool_arguments example_env (cities_text_args "['London']")
              = Return p) by reflexivity.
  split; [exact H|].
  exact (get_cities_agrees_with_parser example_env _ p _ H eq_refl).
Defined.

(** On an argument text that decodes to a JSON object the parser returns,
    with that object as raw arguments, provided that decoding a [cities]
    given as a string raises nothing but what the two inner [except]
    clauses catch. *)
Theorem parser_returns_on_json_objects env arguments_str d :
  json_loads env arguments_str = Return (PyDict d) →
  (∀ s e, dict_get "cities" d = Some (PyStr s) →
          json_loads env s = Raise e →
          caught_by e [JSONDecodeError; ValueError] = true) →
  (∀ s e, dict_get "cities" d = Some (PyStr s) →
          literal_eval env s = Raise e →
          caught_by e [ValueError; SyntaxError] = true) →
  ∃ cities,
    _parse_tool_arguments env arguments_str
    = Return (ParsedToolArguments.mk cities (PyDict d)).
Proof.
  intros Hargs Hjson Hlit.
  rewrite (parse_on_object env arguments_str d)
    by (unfold try_except; by rewrite Hargs).
  destruct (dict_get "cities" d) as [c|]; [|by eexists].
  destruct c as [| | | |s| | |]; try (by eexists).
  unfold decode_cities_text, try_except.
  destruct (json_loads env s) as [v|e] eqn:Ej; cbn [obind]; [by eexists|].
  rewrite (Hjson s e eq_refl Ej).
  destruct (literal_eval env s) as [v|e'] eqn:El; cbn [obind].
  - destruct (is_list v); by eexists.
  - rewrite (Hlit s e' eq_refl El). by eexists.
Qed.

Lemma parser_returns_on_json_objects_witness :
  let text := cities_text_args "London" in
  let d := [("cities", PyStr "London")] in
  json_loads example_env text = Return (PyDict d)
  ∧ ∃ cities,
      _parse_tool_arguments example_env text
      = Return (ParsedToolArguments.mk cities (PyDict d)).
Proof.
  intros text d. split; [reflexivity|].
  apply (parser_returns_on_json_objects example_env text d eq_refl).
  - intros s e [= <-] H. vm_compute in H. by injection H as <-.
  - intros s e [= <-] H. vm_compute in H. by injection H as <-.
Defined.

(** ** assistant.py: processing the gathered results *)

Lemma process_from_within_bounds env cities results i :
  (i + length results ≤ length cities)%nat →
  ∃ out,
    process_from env i cities results = Return out
    ∧ length out = length results
    ∧ ∀ j, match results !! j with
           | Some (Return r) => out !! j = Some r
           | Some (Raise e) =>
               ∃ c, cities !! (i + j)%nat = Some c
                    ∧ out !! j
                      = Some (CityWeatherResult.mk c None None
                                (Some ("Error processing city '"
                                       +:+ fmt env c +:+ "': " +:+ exn_msg e)))
           | None => out !! j = None
           end.
Proof.
  revert i. induction results as [|result results IH]; intros i Hlen.
  - exists []. by repeat split.
  - cbn [length] in Hlen.
    destruct (IH (S i)) as (out & Hout & Hlen' & Hat); [lia|].
    destruct (lookup_lt_is_Some_2 cities i) as [c Hc]; [lia|].
    cbn [process_from]. rewrite Hc, Hout.
    destruct result as [r|e]; cbn [obind]; eexists; (split; [done|]);
      (split; [cbn; by rewrite Hlen'|]);
      intros [|j]; cbn; try done.
    + specialize (Hat j). by rewrite Nat.add_succ_r.
    + exists c. by rewrite Nat.add_0_r.
    + specialize (Hat j). by rewrite Nat.add_succ_r.
Qed.

(** [_process_city_results] on as many results as cities, or fewer: it
    returns as many entries as results, passes every returned entry through
    unchanged, and puts, in the place of every exception, the error entry
    that names the city of the same index. *)
Theorem process_city_results_keeps_places env cities results :
  (length results ≤ length cities)%nat →
  ∃ out,
    _process_city_results env cities results = Return out
    ∧ length out = length results
    ∧ (∀ j r, results !! j = Some (Return r) → out !! j = Some r)
    ∧ (∀ j e, results !! j = Some (Raise e) →
              ∃ c, cities !! j = Some c
                   ∧ out !! j
                     = Some (CityWeatherResult.mk c None None
                               (Some ("Error processing city '"
                                      +:+ fmt env c +:+ "': " +:+ exn_msg e)))).
Proof.
  intros Hlen. unfold _process_city_results.
  destruct (process_from_within_bounds env cities results 0)
    as (out & Hout & Hl & Hat); [lia|].
  exists out. split; [done|]. split; [done|]. split.
  - intros j r Hj. specialize (Hat j). by rewrite Hj in Hat.
  - intros j e Hj. specialize (Hat j). by rewrite Hj in Hat.
Qed.

Lemma process_from_out_of_range env cities results i j e :
  results !! j = Some (Raise e) →
  (length cities ≤ i + j)%nat →
  process_from env i cities results
  = Raise (Exn IndexError "list index out of range").
Proof.
  revert i j. induction results as [|result results IH]; intros i j Hj Hlen;
    [done|].
  cbn [process_from]. destruct j as [|j].
  - injection Hj as ->.
    by rewrite (lookup_ge_None_2 cities i) by lia.
  - cbn in Hj. rewrite (IH (S i) j Hj) by lia.
    destruct result as [r|e0]; [done|].
    by destruct (cities !! i).
Qed.

(** An exception at an index beyond the last city cannot be named:
    [cities[i]] raises [IndexError], whatever the other results are. *)
Theorem process_city_results_out_of_range env cities results j e :
  results !! j = Some (Raise e) →
  (length cities ≤ j)%nat →
  _process_city_results env cities results
  = Raise (Exn IndexError "list index out of range").
Proof.
  intros Hj Hlen. unfold _process_city_results.
  by apply (process_from_out_of_range env cities results 0 j e).
Qed.

Lemma process_city_results_out_of_range_witness :
  let entry := CityWeatherResult.mk (PyStr "Paris") None None (Some "kept") in
  let results := [Return entry; Raise (Exn OtherException "boom")] in
  results !! 1%nat = Some (Raise (Exn OtherException "boom"))
  ∧ _process_city_results example_env [PyStr "Paris"] results
    = Raise (Exn IndexError "list index out of range").
Proof.
  intros entry results. split; [reflexivity|].
  apply (process_city_results_out_of_range example_env [PyStr "Paris"] results
           1 (Exn OtherException "boom") eq_refl).
  simpl. lia.
Defined.

Lemma process_city_results_keeps_places_witness :
  let entry := CityWeatherResult.mk (PyStr "Paris") None None (Some "kept") in
  let cities := [PyStr "Paris"; PyStr "Tokyo"] in
  let results := [Return entry; Raise (Exn OtherException "boom")] in
  (length results ≤ length cities)%nat
  ∧ _process_city_results example_env cities results
    = Return [entry;
              CityWeatherResult.mk (PyStr "Tokyo") None None
                (Some "Error processing city 'Tokyo': boom")].
Proof.
  intros entry cities results.
  assert (Hlen : (length results ≤ length cities)%nat) by (cbn; lia).
  split; [exact Hlen|].
  destruct (process_city_results_keeps_places example_env cities results Hlen)
    as (out & Hout & _).
  rewrite Hout. f_equal. vm_compute in Hout. by injection Hout.
Defined.

(** ** models.py: the text of one entry *)

(** On an entry without error text that has a location and weather data,
    [CityWeatherResult.to_string] is [WeatherResponse.format_for_llm] of
    that location and weather: the two format the same text, and raise
    the same when the location has no string. *)
Theorem to_string_is_format_for_llm env r l w :
  (CityWeatherResult.error r = None ∨ CityWeatherResult.error r = Some "") →
  CityWeatherResult.location r = Some l →
  CityWeatherResult.weather_data r = Some w →
  CityWeatherResult.to_string env r
  = WeatherResponse.format_for_llm env (WeatherResponse.mk l w).
Proof.
  intros Herr Hl Hw.
  unfold CityWeatherResult.to_string, WeatherResponse.format_for_llm.
  rewrite Hl, Hw. by destruct Herr as [-> | ->].
Qed.

Lemma to_string_is_format_for_llm_witness :
  let l := Location.mk (PyInt 48) (PyInt 2) (PyStr "Paris") (PyStr "France") in
  let w := WeatherData.mk (PyInt 21) (PyInt 20) (PyInt 40) (PyInt 7)
             (PyInt 0) PyNone (PyStr "C") (PyStr "%") (PyStr "km/h")
             (PyStr "mm") in
  let r := CityWeatherResult.mk (PyStr "Paris") (Some l) (Some w) (Some "") in
  CityWeatherResult.to_string example_env r
  = WeatherResponse.format_for_llm example_env (WeatherResponse.mk l w).
Proof.
  intros l w r.
  exact (to_string_is_format_for_llm example_env r l w (or_intror eq_refl)
           eq_refl eq_refl).
Defined.
